(** * FinBot: natural-language pipeline, amounts and safe analytics

    A shallow embedding of the Python sources

      - [bot/utils/amounts.py]            ([parse_amount], [format_currency])
      - [bot/utils/time_utils.py]         ([convert_utc_to_local])
      - [bot/handlers/natural_language.py] ([_process_ai_date],
                                            [_classify_intent],
                                            [process_user_text_input])
      - [bot/services/ai_service.py]      ([_validate_and_normalize_response])
      - [bot/services/analytics_service.py] ([answer_question] and helpers)

    Python [str] values are lists of Unicode code points, [Decimal] is a
    sign/coefficient/exponent triple with its special values, exceptions
    are values of an error monad, and the calls to the language model and
    to the database are recorded in a trace. *)

From Stdlib Require Import ZArith NArith List Bool Lia String Ascii.
Import ListNotations.

Set Implicit Arguments.
Unset Strict Implicit.

(* ================================================================== *)
(** * Python strings *)
(* ================================================================== *)

Module PyStr.

(** A [str] is a sequence of code points. *)
Definition pystr := list N.

(** Source literals are written as UTF-8 Rocq strings and decoded. *)
Fixpoint utf8_decode (bs : list N) : pystr :=
  match bs with
  | [] => []
  | b :: r =>
    if (b <? 128)%N then b :: utf8_decode r
    else if (b <? 224)%N then
      match r with
      | b1 :: r' => ((b - 192) * 64 + (b1 - 128))%N :: utf8_decode r'
      | _ => []
      end
    else if (b <? 240)%N then
      match r with
      | b1 :: b2 :: r' =>
        ((b - 224) * 4096 + (b1 - 128) * 64 + (b2 - 128))%N :: utf8_decode r'
      | _ => []
      end
    else
      match r with
      | b1 :: b2 :: b3 :: r' =>
        ((b - 240) * 262144 + (b1 - 128) * 4096 + (b2 - 128) * 64 + (b3 - 128))%N
          :: utf8_decode r'
      | _ => []
      end
  end.

Definition py (s : string) : pystr :=
  utf8_decode (map N_of_ascii (list_ascii_of_string s)).

(** [str.isspace] on one code point ([_PyUnicode_IsWhitespace]). *)
Definition isspace (c : N) : bool :=
  (((9 <=? c) && (c <=? 13)) || ((28 <=? c) && (c <=? 32))
   || (c =? 133) || (c =? 160) || (c =? 5760)
   || ((8192 <=? c) && (c <=? 8202))
   || (c =? 8232) || (c =? 8233) || (c =? 8239) || (c =? 8287)
   || (c =? 12288))%N.

(** The parts of the Unicode database and of the interpreter that the
    sources rely on through library calls and that are not spelled out
    here: case mappings and decimal digits outside ASCII, [repr] of a
    finite float, the extra ISO 8601 forms that [date.fromisoformat]
    accepts from Python 3.11 on, and the format specification [",.2f"]. *)
Class PyRuntime := {
  (** full uppercase mapping of one non-ASCII code point *)
  unicode_upper : N -> list N;
  (** lowercase mapping of one non-ASCII code point in its context
      (text before, code point, text after: Greek final sigma) *)
  unicode_lower : list N -> N -> list N -> list N;
  (** value of a non-ASCII decimal digit (category Nd) *)
  unicode_decimal : N -> option N;
  (** [repr] of a finite non-zero float [(-1)^s * m * 2^e] *)
  float_repr_finite : bool -> positive -> Z -> pystr;
  (** [date.fromisoformat] on strings that are not [YYYY-MM-DD]
      (always [None] before Python 3.11) *)
  iso8601_extended : pystr -> option (Z * Z * Z);
  (** [format(value, ",.2f")] of a number, given by its [str] *)
  format_comma_2f : pystr -> pystr;
  (** white space has no case: the eleven non-ASCII code points that
      [str.isspace] accepts are their own lowercase *)
  unicode_lower_space :
    forall before c after,
      isspace c = true -> unicode_lower before c after = [c]
}.

(** The runtime that knows ASCII only: every other code point is caseless
    and not a digit. It agrees with CPython on ASCII text. *)
Definition ascii_runtime : PyRuntime := {|
  unicode_upper := fun c => [c];
  unicode_lower := fun _ c _ => [c];
  unicode_decimal := fun _ => None;
  float_repr_finite := fun _ _ _ => [];
  iso8601_extended := fun _ => None;
  format_comma_2f := fun s => s;
  unicode_lower_space := fun _ _ _ _ => eq_refl
|}.

Definition ascii_upper (c : N) : N :=
  if ((97 <=? c) && (c <=? 122))%N then (c - 32)%N else c.

Definition ascii_lower (c : N) : N :=
  if ((65 <=? c) && (c <=? 90))%N then (c + 32)%N else c.

Section WithRuntime.
Context {RT : PyRuntime}.

(** [str.upper()]: code point by code point. *)
Definition upper_cp (c : N) : list N :=
  if (c <? 128)%N then [ascii_upper c] else unicode_upper c.

Definition upper (s : pystr) : pystr := flat_map upper_cp s.

(** [str.lower()]. *)
Fixpoint lower_from (before s : pystr) : pystr :=
  match s with
  | [] => []
  | c :: rest =>
    (if (c <? 128)%N then [ascii_lower c] else unicode_lower before c rest)
      ++ lower_from (before ++ [c]) rest
  end.

Definition lower (s : pystr) : pystr := lower_from [] s.

(** Decimal digit value of a code point ([Py_UNICODE_TODECIMAL]). *)
Definition digit_value (c : N) : option N :=
  if ((48 <=? c) && (c <=? 57))%N then Some (c - 48)%N
  else if (c <? 128)%N then None
  else unicode_decimal c.

Definition is_digit (c : N) : bool :=
  match digit_value c with Some _ => true | None => false end.

End WithRuntime.

Fixpoint lstrip (s : pystr) : pystr :=
  match s with
  | c :: r => if isspace c then lstrip r else s
  | [] => []
  end.

Definition rstrip (s : pystr) : pystr := rev (lstrip (rev s)).

(** [s.strip()] *)
Definition strip (s : pystr) : pystr := rstrip (lstrip s).

(** [s.rstrip(chars)] for a one-character [chars]. *)
Fixpoint lstrip_char (c : N) (s : pystr) : pystr :=
  match s with
  | x :: r => if (x =? c)%N then lstrip_char c r else s
  | [] => []
  end.

Definition rstrip_char (c : N) (s : pystr) : pystr :=
  rev (lstrip_char c (rev s)).

Fixpoint eqb (a b : pystr) : bool :=
  match a, b with
  | [], [] => true
  | x :: a', y :: b' => (x =? y)%N && eqb a' b'
  | _, _ => false
  end.

(** [s.startswith(p)] *)
Fixpoint startswith (p s : pystr) : bool :=
  match p, s with
  | [], _ => true
  | x :: p', y :: s' => (x =? y)%N && startswith p' s'
  | _ :: _, [] => false
  end.

(** [sub in s] *)
Fixpoint contains (sub s : pystr) : bool :=
  startswith sub s ||
  match s with
  | [] => false
  | _ :: s' => contains sub s'
  end.

(** [x in [a, b, ...]] for a list of strings *)
Definition mem (x : pystr) (l : list pystr) : bool := existsb (eqb x) l.

Fixpoint find_at (sub s : pystr) (i : Z) : Z :=
  if startswith sub s then i
  else match s with
       | [] => (-1)%Z
       | _ :: s' => find_at sub s' (i + 1)%Z
       end.

(** [s.find(sub, start)] for [0 <= start]. *)
Definition find (sub s : pystr) (start : Z) : Z :=
  if (Z.of_nat (List.length s) <? start)%Z then (-1)%Z
  else find_at sub (skipn (Z.to_nat start) s) start.

(** One bound of a slice, as [PySlice_AdjustIndices] clips it. *)
Definition slice_bound (len i : Z) : Z :=
  if (i <? 0)%Z then Z.max 0 (i + len) else Z.min i len.

(** [s[a:b]] *)
Definition slice (s : pystr) (a b : Z) : pystr :=
  let len := Z.of_nat (List.length s) in
  let a' := slice_bound len a in
  let b' := slice_bound len b in
  firstn (Z.to_nat (b' - a')) (skipn (Z.to_nat a') s).

(** [s.replace(old, new)] for a one-character [old]. *)
Definition replace_char (old : N) (new : pystr) (s : pystr) : pystr :=
  flat_map (fun c => if (c =? old)%N then new else [c]) s.

(** [s.ljust(width, fill)] *)
Definition ljust (width : nat) (fill : N) (s : pystr) : pystr :=
  s ++ repeat fill (width - List.length s).

(** [s.split(sep)] for a one-character [sep]. *)
Fixpoint split_char (sep : N) (s : pystr) : list pystr :=
  match s with
  | [] => [[]]
  | c :: r =>
    if (c =? sep)%N then [] :: split_char sep r
    else match split_char sep r with
         | w :: ws => (c :: w) :: ws
         | [] => [[c]]
         end
  end.

(** Decimal digits of a natural number, most significant first. *)
Fixpoint digits_fuel (fuel : nat) (n : N) (acc : pystr) : pystr :=
  match fuel with
  | O => acc
  | S f =>
    let acc' := (48 + n mod 10)%N :: acc in
    if (n <? 10)%N then acc' else digits_fuel f (n / 10)%N acc'
  end.

Definition str_of_N (n : N) : pystr :=
  digits_fuel (S (N.to_nat (N.log2 n))) n [].

(** [str(i)] for an [int]. *)
Definition str_of_Z (z : Z) : pystr :=
  match z with
  | Zneg p => 45%N :: str_of_N (Npos p)
  | _ => str_of_N (Z.to_N z)
  end.

(** [len(s) < n] etc. use the number of code points. *)
Definition len (s : pystr) : Z := Z.of_nat (List.length s).

End PyStr.

Export PyStr.

(* ================================================================== *)
(** * Exceptions *)
(* ================================================================== *)

Module Py.

(** The exception classes the sources raise or catch.
    [JSONDecodeError] is a subclass of [ValueError]; [InvalidOperation]
    is [decimal.InvalidOperation] (an [ArithmeticError]);
    [OtherException] stands for any other subclass of [Exception]
    (provider and transport errors). *)
Inductive exn_class :=
| ValueError | JSONDecodeError | TypeError | RuntimeError | OverflowError
| InvalidOperation | SQLAlchemyError | OtherException.

(** An exception: its class and [str(e)]. *)
Record exn := Exn { exn_cls : exn_class; exn_msg : pystr }.

Inductive Outcome (A : Type) : Type :=
| Returned (a : A)
| Raised (e : exn).
Arguments Returned {A} a.
Arguments Raised {A} e.

Definition bind {A B} (m : Outcome A) (k : A -> Outcome B) : Outcome B :=
  match m with
  | Returned a => k a
  | Raised e => Raised e
  end.

(** [isinstance(e, ValueError)] *)
Definition is_ValueError (e : exn) : bool :=
  match exn_cls e with ValueError | JSONDecodeError => true | _ => false end.

Definition is_InvalidOperation (e : exn) : bool :=
  match exn_cls e with InvalidOperation => true | _ => false end.

Definition is_TypeError (e : exn) : bool :=
  match exn_cls e with TypeError => true | _ => false end.

(** [try: body / except <classes> as e: handler(e)] *)
Definition try_except {A} (body : Outcome A) (catches : exn -> bool)
           (handler : exn -> Outcome A) : Outcome A :=
  match body with
  | Returned a => Returned a
  | Raised e => if catches e then handler e else Raised e
  end.

End Py.

Export Py.

Declare Scope py_scope.
Delimit Scope py_scope with py.
Notation "x <- e ;; k" := (bind e (fun x => k))
  (at level 61, e at next level, right associativity) : py_scope.
Open Scope py_scope.

(* ================================================================== *)
(** * [decimal.Decimal] in the default context *)
(* ================================================================== *)

Module PyDecimal.

(** [sign] is [true] for a negative number, as in [Decimal._sign]. *)
Inductive Decimal :=
| Finite (sign : bool) (coeff : N) (exp : Z)
| Infinity (sign : bool)
| NaN (sign : bool) (signaling : bool) (payload : N).

(** The default context: [prec=28], [rounding=ROUND_HALF_EVEN],
    [Emin=-999999], [Emax=999999], and [InvalidOperation] trapped. *)
Definition prec : Z := 28.
Definition Emax : Z := 999999.
Definition Emin : Z := -999999.
Definition Etiny : Z := Emin - prec + 1.

Definition conversion_syntax : exn :=
  Exn InvalidOperation (py "[<class 'decimal.ConversionSyntax'>]").
Definition invalid_operation : exn :=
  Exn InvalidOperation (py "[<class 'decimal.InvalidOperation'>]").

Section WithRuntime.
Context {RT : PyRuntime}.

(** The longest prefix of digits: its value on top of [acc], how many
    digits it has, and what follows. *)
Fixpoint take_digits (s : pystr) (acc : N) (n : Z) : N * Z * pystr :=
  match s with
  | c :: r =>
    match digit_value c with
    | Some d => take_digits r (10 * acc + d)%N (n + 1)%Z
    | None => (acc, n, s)
    end
  | [] => (acc, n, [])
  end.

(** An optional sign and at least one digit, up to the end of the
    string. *)
Definition parse_exponent (s : pystr) : option Z :=
  let '(neg, r) := match s with
                   | 43%N :: r => (false, r)
                   | 45%N :: r => (true, r)
                   | _ => (false, s)
                   end in
  let '(v, n, rest) := take_digits r 0%N 0%Z in
  if (n =? 0)%Z then None
  else match rest with
       | [] => Some (if neg then (- Z.of_N v)%Z else Z.of_N v)
       | _ => None
       end.

(** A number: integer digits, then optionally a dot and fractional
    digits, at least one digit in all, then optionally [E] and an
    exponent, up to the end of the string. The result is the coefficient
    read from the integer and fractional digits, and the exponent less
    the number of fractional digits. *)
Definition parse_number (s : pystr) : option (N * Z) :=
  let '(iv, ilen, r1) := take_digits s 0%N 0%Z in
  let '(cv, flen, r2) := match r1 with
                         | 46%N :: r => take_digits r iv 0%Z
                         | _ => (iv, 0%Z, r1)
                         end in
  if (ilen + flen =? 0)%Z then None
  else match r2 with
       | [] => Some (cv, (- flen)%Z)
       | e :: r =>
         if ((e =? 69) || (e =? 101))%N then
           match parse_exponent r with
           | Some x => Some (cv, (x - flen)%Z)
           | None => None
           end
         else None
       end.

(** An optional [s], then [NaN], then payload digits up to the end of the
    string; letters in either case. *)
Definition parse_nan (s : pystr) : option (bool * N) :=
  let l := map ascii_lower s in
  let '(sig, r) := match l with
                   | 115%N :: r => (true, r)
                   | _ => (false, l)
                   end in
  match r with
  | 110%N :: 97%N :: 110%N :: d =>
    let '(v, _, rest) := take_digits d 0%N 0%Z in
    match rest with
    | [] => Some (sig, v)
    | _ => None
    end
  | _ => None
  end.

(** [Decimal(value)] for a [str]: surrounding whitespace and underscores
    are dropped, then the numeric-string syntax is matched. *)
Definition Decimal_of_str (value : pystr) : Outcome Decimal :=
  let s := replace_char 95 [] (strip value) in
  let '(sign, body) := match s with
                       | 45%N :: r => (true, r)
                       | 43%N :: r => (false, r)
                       | _ => (false, s)
                       end in
  match parse_number body with
  | Some (c, e) => Returned (Finite sign c e)
  | None =>
    let l := map ascii_lower body in
    if eqb l (py "inf") || eqb l (py "infinity") then Returned (Infinity sign)
    else match parse_nan body with
         | Some (sig, p) => Returned (NaN sign sig p)
         | None => Raised conversion_syntax
         end
  end.

End WithRuntime.

(** [Decimal("0")] and [Decimal("0.01")] *)
Definition zero : Decimal := Finite false 0 0.
Definition cent : Decimal := Finite false 1 (-2).

(** [len(self._int)] *)
Definition ndigits (c : N) : Z := len (str_of_N c).

(** [self.adjusted()] *)
Definition adjusted (c : N) (e : Z) : Z := (e + ndigits c - 1)%Z.

(** [d <= 0]: comparing a NaN signals [InvalidOperation]. *)
Definition le_zero (d : Decimal) : Outcome bool :=
  match d with
  | NaN _ _ _ => Raised invalid_operation
  | Infinity s => Returned s
  | Finite s c _ => Returned (s || (c =? 0)%N)
  end.

(** [d < 0] *)
Definition lt_zero (d : Decimal) : Outcome bool :=
  match d with
  | NaN _ _ _ => Raised invalid_operation
  | Infinity s => Returned s
  | Finite s c _ => Returned (s && negb (c =? 0)%N)
  end.

(** [self._rescale(target, ROUND_HALF_EVEN)] on the coefficient of a
    non-zero number: zeros are appended when the exponent goes down, and
    the digits that are cut are rounded half to even when it goes up. *)
Definition rescale (c : N) (e target : Z) : N :=
  if (target <=? e)%Z then (c * 10 ^ Z.to_N (e - target))%N
  else
    let p := (10 ^ Z.to_N (target - e))%N in
    let q := (c / p)%N in
    let r := (c mod p)%N in
    if ((p <? 2 * r) || ((2 * r =? p) && N.odd q))%N then (q + 1)%N else q.

(** [self._fix_nan(context)]: a payload keeps its last [prec] digits. *)
Definition fix_nan (s : bool) (p : N) : Decimal :=
  NaN s false (p mod 10 ^ Z.to_N prec)%N.

(** [self.quantize(exp)] *)
Definition quantize (self exp : Decimal) : Outcome Decimal :=
  match self, exp with
  | NaN _ true _, _ => Raised invalid_operation
  | _, NaN _ true _ => Raised invalid_operation
  | NaN s false p, _ => Returned (fix_nan s p)
  | _, NaN s false p => Returned (fix_nan s p)
  | Infinity s, Infinity _ => Returned (Infinity s)
  | Infinity _, Finite _ _ _ => Raised invalid_operation
  | Finite _ _ _, Infinity _ => Raised invalid_operation
  | Finite s c e, Finite _ _ te =>
    if negb ((Etiny <=? te) && (te <=? Emax))%Z then Raised invalid_operation
    else if (c =? 0)%N then Returned (Finite s 0 te)
    else if (Emax <? adjusted c e)%Z then Raised invalid_operation
    else if (prec <? adjusted c e - te + 1)%Z then Raised invalid_operation
    else
      let c' := rescale c e te in
      if (Emax <? adjusted c' te)%Z then Raised invalid_operation
      else if (prec <? ndigits c')%Z then Raised invalid_operation
      else Returned (Finite s c' te)
  end.

(** [-d] for a [d] that [quantize] returned and that compared below
    zero: at most [prec] digits, so the final [_fix] changes nothing. *)
Definition neg (d : Decimal) : Decimal :=
  match d with
  | Finite s c e => if (c =? 0)%N then Finite false c e else Finite (negb s) c e
  | Infinity s => Infinity (negb s)
  | NaN s g p => NaN s g p
  end.

Definition sign_str (s : bool) : pystr := if s then [45%N] else [].

(** ["%+d" % n] *)
Definition signed_int (n : Z) : pystr :=
  if (n <? 0)%Z then str_of_Z n else 43%N :: str_of_Z n.

(** [str(d)] ([Decimal.__str__], scientific notation, capitals on). *)
Definition to_str (d : Decimal) : pystr :=
  match d with
  | Infinity s => sign_str s ++ py "Infinity"
  | NaN s false p =>
    sign_str s ++ py "NaN" ++ (if (p =? 0)%N then [] else str_of_N p)
  | NaN s true p =>
    sign_str s ++ py "sNaN" ++ (if (p =? 0)%N then [] else str_of_N p)
  | Finite s c e =>
    let int_ := str_of_N c in
    let leftdigits := (e + len int_)%Z in
    let dotplace :=
      if ((e <=? 0) && (-6 <? leftdigits))%Z then leftdigits else 1%Z in
    let '(intpart, fracpart) :=
      if (dotplace <=? 0)%Z then
        ([48%N], 46%N :: repeat 48%N (Z.to_nat (- dotplace)) ++ int_)
      else if (len int_ <=? dotplace)%Z then
        (int_ ++ repeat 48%N (Z.to_nat (dotplace - len int_)), [])
      else
        (firstn (Z.to_nat dotplace) int_,
         46%N :: skipn (Z.to_nat dotplace) int_) in
    let exp :=
      if (leftdigits =? dotplace)%Z then []
      else 69%N :: signed_int (leftdigits - dotplace) in
    sign_str s ++ intpart ++ fracpart ++ exp
  end.

End PyDecimal.

Export PyDecimal.

(* ================================================================== *)
(** * [float] and [int] *)
(* ================================================================== *)

Module PyFloat.

(** A binary float: [FFinite neg m e] is [(-1)^neg * m * 2^e]. *)
Inductive pyfloat :=
| FNan
| FInf (neg : bool)
| FZero (neg : bool)
| FFinite (neg : bool) (m : positive) (e : Z).

(** [str(f)] *)
Definition float_str {RT : PyRuntime} (f : pyfloat) : pystr :=
  match f with
  | FNan => py "nan"
  | FInf false => py "inf"
  | FInf true => py "-inf"
  | FZero false => py "0.0"
  | FZero true => py "-0.0"
  | FFinite s m e => float_repr_finite s m e
  end.

End PyFloat.

Export PyFloat.

(* ================================================================== *)
(** * [bot/utils/amounts.py] *)
(* ================================================================== *)

Module Amounts.

Section WithRuntime.
Context {RT : PyRuntime}.

(** [parse_amount(value)] *)
Definition parse_amount (value : pystr) : Outcome Decimal :=
  let normalized := strip (replace_char 44 (py ".") value) in
  amount <- Decimal_of_str normalized ;;
  nonpositive <- le_zero amount ;;
  if nonpositive : bool then
    Raised (Exn InvalidOperation (py "Amount must be positive."))
  else quantize amount cent.

(** The argument of [format_currency]:
    [Decimal | float | int | None]. *)
Inductive amount_arg :=
| ANone
| ADecimal (d : Decimal)
| AFloat (f : pyfloat)
| AInt (z : Z).

(** The loop that inserts a dot before every third digit, counting from
    the right: [digits] is [reversed(integer_part)], [i] the index and
    [acc] is [formatted_integer]. *)
Fixpoint group_thousands (digits : pystr) (i : nat) (acc : pystr) : pystr :=
  match digits with
  | [] => acc
  | digit :: r =>
    let acc := if (0 <? i)%nat && (i mod 3 =? 0)%nat then 46%N :: acc else acc in
    group_thousands r (S i) (digit :: acc)
  end.

(** [format_currency(amount)] *)
Definition format_currency (amount : amount_arg) : Outcome pystr :=
  let amount := match amount with ANone => ADecimal zero | a => a end in
  quantized <-
    try_except
      (amount <- match amount with
                 | ADecimal d => Returned d
                 | AFloat f => Decimal_of_str (float_str f)
                 | AInt z => Decimal_of_str (str_of_Z z)
                 | ANone => Returned zero
                 end ;;
       quantize amount cent)
      (fun e => is_ValueError e || is_InvalidOperation e)
      (fun _ => Returned zero) ;;
  is_negative <- lt_zero quantized ;;
  let quantized := if is_negative : bool then neg quantized else quantized in
  let amount_str := to_str quantized in
  parts <-
    (if contains (py ".") amount_str then
       match split_char 46 amount_str with
       | [integer_part; decimal_part] => Returned (integer_part, decimal_part)
       | _ => Raised (Exn ValueError (py "too many values to unpack (expected 2)"))
       end
     else Returned (amount_str, py "00")) ;;
  let '(integer_part, decimal_part) := parts in
  let decimal_part := firstn 2 (ljust 2 48 decimal_part) in
  let formatted_integer := group_thousands (rev integer_part) 0 [] in
  let sign := if is_negative : bool then py "-" else [] in
  Returned (sign ++ py "$" ++ formatted_integer ++ py "," ++ decimal_part).

End WithRuntime.

End Amounts.

Export Amounts.

(* ================================================================== *)
(** * [datetime.date] and [datetime.datetime] *)
(* ================================================================== *)

Module PyDatetime.

Local Open Scope Z_scope.

Record date := Date { year : Z; month : Z; day : Z }.

Definition date_eqb (a b : date) : bool :=
  (year a =? year b) && (month a =? month b) && (day a =? day b).

(** [a < b] and [a > b] compare [(year, month, day)]. *)
Definition date_ltb (a b : date) : bool :=
  (year a <? year b)
  || ((year a =? year b)
      && ((month a <? month b)
          || ((month a =? month b) && (day a <? day b)))).

Definition date_gtb (a b : date) : bool := date_ltb b a.

Definition _is_leap (y : Z) : bool :=
  (y mod 4 =? 0) && (negb (y mod 100 =? 0) || (y mod 400 =? 0)).

Definition _DAYS_IN_MONTH (m : Z) : Z :=
  nth (Z.to_nat m) [-1; 31; 28; 31; 30; 31; 30; 31; 31; 30; 31; 30; 31] (-1).

Definition _DAYS_BEFORE_MONTH (m : Z) : Z :=
  nth (Z.to_nat m) [-1; 0; 31; 59; 90; 120; 151; 181; 212; 243; 273; 304; 334] (-1).

Definition _days_before_year (y : Z) : Z :=
  let y := y - 1 in y * 365 + y / 4 - y / 100 + y / 400.

Definition _days_in_month (y m : Z) : Z :=
  if (m =? 2) && _is_leap y then 29 else _DAYS_IN_MONTH m.

Definition _days_before_month (y m : Z) : Z :=
  _DAYS_BEFORE_MONTH m + (if (2 <? m) && _is_leap y then 1 else 0).

Definition _ymd2ord (y m d : Z) : Z :=
  _days_before_year y + _days_before_month y m + d.

Definition _DI400Y : Z := 146097.
Definition _DI100Y : Z := 36524.
Definition _DI4Y : Z := 1461.
Definition _MAXORDINAL : Z := 3652059.

Definition _ord2ymd (n : Z) : date :=
  let n := n - 1 in
  let n400 := n / _DI400Y in
  let n := n mod _DI400Y in
  let y := n400 * 400 + 1 in
  let n100 := n / _DI100Y in
  let n := n mod _DI100Y in
  let n4 := n / _DI4Y in
  let n := n mod _DI4Y in
  let n1 := n / 365 in
  let n := n mod 365 in
  let y := y + n100 * 100 + n4 * 4 + n1 in
  if (n1 =? 4) || (n100 =? 4) then Date (y - 1) 12 31
  else
    let leapyear := (n1 =? 3) && (negb (n4 =? 24) || (n100 =? 3)) in
    let m := Z.shiftr (n + 50) 5 in
    let preceding :=
      _DAYS_BEFORE_MONTH m + (if (2 <? m) && leapyear then 1 else 0) in
    let '(m, preceding) :=
      if n <? preceding then
        (m - 1,
         preceding
         - (_DAYS_IN_MONTH (m - 1)
            + (if (m - 1 =? 2) && leapyear then 1 else 0)))
      else (m, preceding) in
    Date y m (n - preceding + 1).

(** [date(year, month, day)] with [_check_date_fields]. *)
Definition new_date (y m d : Z) : Outcome date :=
  if negb ((1 <=? y) && (y <=? 9999)) then
    Raised (Exn ValueError (py "year must be in 1..9999"))
  else if negb ((1 <=? m) && (m <=? 12)) then
    Raised (Exn ValueError (py "month must be in 1..12"))
  else if negb ((1 <=? d) && (d <=? _days_in_month y m)) then
    Raised (Exn ValueError (py "day is out of range for month"))
  else Returned (Date y m d).

Definition toordinal (d : date) : Z := _ymd2ord (year d) (month d) (day d).

(** [d - timedelta(days=n)] *)
Definition sub_days (d : date) (n : Z) : Outcome date :=
  let o := toordinal d - n in
  if (0 <? o) && (o <=? _MAXORDINAL) then Returned (_ord2ymd o)
  else Raised (Exn OverflowError (py "date value out of range")).

(** ["%0*d" % (width, n)] for [0 <= n] *)
Definition zero_pad (width : nat) (n : Z) : pystr :=
  let ds := str_of_N (Z.to_N n) in
  repeat 48%N (width - List.length ds) ++ ds.

(** [d.isoformat()]; [d.strftime("%Y-%m-%d")] gives the same text (on
    platforms whose C library does not pad [%Y], for years from 1000). *)
Definition isoformat (d : date) : pystr :=
  zero_pad 4 (year d) ++ py "-" ++ zero_pad 2 (month d) ++ py "-"
  ++ zero_pad 2 (day d).

Definition strftime_ymd (d : date) : pystr := isoformat d.

Definition ascii_digit (c : N) : option Z :=
  if ((48 <=? c) && (c <=? 57))%N then Some (Z.of_N c - 48) else None.

Section WithRuntime.
Context {RT : PyRuntime}.

(** [date.fromisoformat(s)]: [YYYY-MM-DD] in ASCII digits, or one of the
    forms the runtime adds; then the fields are checked. *)
Definition fromisoformat (s : pystr) : Outcome date :=
  let fields :=
    match map ascii_digit s, s with
    | [Some y1; Some y2; Some y3; Some y4; _; Some m1; Some m2; _;
       Some d1; Some d2],
      [_; _; _; _; 45%N; _; _; 45%N; _; _] =>
      Some (y1 * 1000 + y2 * 100 + y3 * 10 + y4, m1 * 10 + m2, d1 * 10 + d2)
    | _, _ => iso8601_extended s
    end in
  match fields with
  | Some (y, m, d) => new_date y m d
  | None =>
    Raised (Exn ValueError (py "Invalid isoformat string: '" ++ s ++ py "'"))
  end.

(** The regular expression that [_strptime] builds for ["%Y-%m-%d"]:
    four digits, a dash, one of [1[0-2]], [0[1-9]], [[1-9]], a dash, and
    one of [3[01]], [[12]\d], [0[1-9]], [[1-9]], [ [1-9]]. Alternatives
    are tried in order, with backtracking into what follows. *)
Definition alternative := pystr -> option (Z * pystr).

Fixpoint alt {R} (alts : list alternative) (s : pystr)
         (k : Z -> pystr -> option R) : option R :=
  match alts with
  | [] => None
  | a :: rest =>
    match a s with
    | Some (v, r) =>
      match k v r with
      | Some x => Some x
      | None => alt rest s k
      end
    | None => alt rest s k
    end
  end.

Definition in_range (lo hi c : N) : bool := ((lo <=? c) && (c <=? hi))%N.

(** A fixed first character and a second one in an ASCII range. *)
Definition two_chars (first lo hi : N) : alternative := fun s =>
  match s with
  | a :: b :: r =>
    if (a =? first)%N && in_range lo hi b
    then Some (match ascii_digit a with Some x => x | None => 0 end * 10
               + (Z.of_N b - 48), r)
    else None
  | _ => None
  end.

Definition one_nonzero : alternative := fun s =>
  match s with
  | a :: r => if in_range 49 57 a then Some (Z.of_N a - 48, r) else None
  | _ => None
  end.

Definition one_two_then_digit : alternative := fun s =>
  match s with
  | a :: b :: r =>
    match digit_value b with
    | Some x => if in_range 49 50 a
                then Some ((Z.of_N a - 48) * 10 + Z.of_N x, r) else None
    | None => None
    end
  | _ => None
  end.

Definition month_alternatives : list alternative :=
  [two_chars 49 48 50; two_chars 48 49 57; one_nonzero].

Definition day_alternatives : list alternative :=
  [two_chars 51 48 49; one_two_then_digit; two_chars 48 49 57; one_nonzero;
   two_chars 32 49 57].

Definition dash (s : pystr) : option pystr :=
  match s with
  | 45%N :: r => Some r
  | _ => None
  end.

Definition four_digits (s : pystr) : option (Z * pystr) :=
  match s with
  | a :: b :: c :: d :: r =>
    match digit_value a, digit_value b, digit_value c, digit_value d with
    | Some a, Some b, Some c, Some d =>
      Some (Z.of_N (a * 1000 + b * 100 + c * 10 + d), r)
    | _, _, _, _ => None
    end
  | _ => None
  end.

(** The match of the month, the dash and the day at the start of [s]. *)
Definition match_md (s : pystr) : option (Z * Z * pystr) :=
  alt month_alternatives s (fun m r =>
    match dash r with
    | Some r => alt day_alternatives r (fun d r => Some (m, d, r))
    | None => None
    end).

(** The match of the whole expression at the start of [s]: year, month,
    day and the text that is left. *)
Definition match_ymd (s : pystr) : option (Z * Z * Z * pystr) :=
  match four_digits s with
  | Some (y, r) =>
    match dash r with
    | Some r =>
      match match_md r with
      | Some (m, d, rest) => Some (y, m, d, rest)
      | None => None
      end
    | None => None
    end
  | None => None
  end.

(** [datetime.strptime(s, "%Y-%m-%d").date()] *)
Definition strptime_ymd (s : pystr) : Outcome date :=
  match match_ymd s with
  | None =>
    Raised (Exn ValueError
              (py "time data '" ++ s ++ py "' does not match format '%Y-%m-%d'"))
  | Some (y, m, d, rest) =>
    match rest with
    | [] => new_date y m d
    | _ => Raised (Exn ValueError (py "unconverted data remains: " ++ rest))
    end
  end.

End WithRuntime.

(** The two time zones of the sources: [timezone.utc] and
    [ZoneInfo("America/Bogota")]. *)
Inductive tzinfo := UTC | Bogota.

(** [tz.utcoffset(dt)] in seconds. Bogota has been at UTC-5 without
    daylight saving since February 1993. *)
Definition utcoffset (tz : tzinfo) : Z :=
  match tz with
  | UTC => 0
  | Bogota => -18000
  end.

(** An aware [datetime]. *)
Record datetime := Datetime {
  dt_date : date;
  hour : Z;
  minute : Z;
  second : Z;
  microsecond : Z;
  tz : tzinfo
}.

(** [datetime.combine(d, time(hour=h), tzinfo=tz)] *)
Definition combine (d : date) (h : Z) (tz : tzinfo) : datetime :=
  Datetime d h 0 0 0 tz.

(** [dt.astimezone(tz)]: the same instant on the clock of [tz]. *)
Definition astimezone (dt : datetime) (target : tzinfo) : Outcome datetime :=
  let secs :=
    hour dt * 3600 + minute dt * 60 + second dt
    - utcoffset (tz dt) + utcoffset target in
  let o := toordinal (dt_date dt) + secs / 86400 in
  let rem := secs mod 86400 in
  if (0 <? o) && (o <=? _MAXORDINAL) then
    Returned (Datetime (_ord2ymd o) (rem / 3600) (rem mod 3600 / 60)
                       (rem mod 60) (microsecond dt) target)
  else Raised (Exn OverflowError (py "date value out of range")).

End PyDatetime.

Export PyDatetime.

(* ================================================================== *)
(** * [bot/utils/time_utils.py] *)
(* ================================================================== *)

Module TimeUtils.

(** [ZoneInfo(key)], with the zone database cut down to the one key the
    sources pass. *)
Definition ZoneInfo (key : pystr) : Outcome tzinfo :=
  if eqb key (py "America/Bogota") then Returned Bogota
  else Raised (Exn OtherException (py "No time zone found with key " ++ key)).

(** [convert_utc_to_local(utc_dt, timezone_str)]. Every [datetime] here is
    aware, so the guard on [utc_dt.tzinfo is None] never fires. *)
Definition convert_utc_to_local (utc_dt : datetime) (timezone_str : pystr)
  : Outcome datetime :=
  local_tz <-
    try_except (ZoneInfo timezone_str) (fun _ => true)
      (fun e =>
         Raised (Exn ValueError
                   (py "Zona horaria inválida: " ++ timezone_str
                    ++ py ". Usa formato IANA (ej: 'America/Bogota'). Error: "
                    ++ exn_msg e))) ;;
  astimezone utc_dt local_tz.

End TimeUtils.

Export TimeUtils.

(* ================================================================== *)
(** * Python objects, as the sources observe them *)
(* ================================================================== *)

Module PyObj.

(** A value decoded from JSON or read from a database row. [POther]
    is an object of any other type (a list, a dict, a [datetime]): the
    sources only ever take its [str], and it has no [__int__]. *)
Inductive pyobj :=
| PNone
| PBool (b : bool)
| PInt (z : Z)
| PFloat (f : pyfloat)
| PStr (s : pystr)
| PDec (d : Decimal)
| POther (str_ : pystr).

Section WithRuntime.
Context {RT : PyRuntime}.

(** [str(o)] *)
Definition py_str (o : pyobj) : pystr :=
  match o with
  | PNone => py "None"
  | PBool true => py "True"
  | PBool false => py "False"
  | PInt z => str_of_Z z
  | PFloat f => float_str f
  | PStr s => s
  | PDec d => to_str d
  | POther r => r
  end.

(** Digits with single underscores between them, up to the end. *)
Fixpoint int_digits (s : pystr) (acc : N) (after_digit : bool) : option N :=
  match s with
  | [] => if after_digit then Some acc else None
  | c :: r =>
    match digit_value c with
    | Some d => int_digits r (10 * acc + d)%N true
    | None =>
      if (c =? 95)%N && after_digit then int_digits r acc false else None
    end
  end.

(** [int(s)] for a [str] *)
Definition int_of_str (s : pystr) : Outcome Z :=
  let t := strip s in
  let '(neg, body) := match t with
                      | 45%N :: r => (true, r)
                      | 43%N :: r => (false, r)
                      | _ => (false, t)
                      end in
  match int_digits body 0%N false with
  | Some n => Returned (if neg then (- Z.of_N n)%Z else Z.of_N n)
  | None =>
    Raised (Exn ValueError
              (py "invalid literal for int() with base 10: '" ++ s ++ py "'"))
  end.

(** [int(o)] *)
Definition py_int (o : pyobj) : Outcome Z :=
  match o with
  | PInt z => Returned z
  | PBool b => Returned (if b then 1 else 0)%Z
  | PStr s => int_of_str s
  | PFloat FNan =>
    Raised (Exn ValueError (py "cannot convert float NaN to integer"))
  | PFloat (FInf _) =>
    Raised (Exn OverflowError (py "cannot convert float infinity to integer"))
  | PFloat (FZero _) => Returned 0%Z
  | PFloat (FFinite neg m e) =>
    let a := (if (0 <=? e)%Z then Z.pos m * 2 ^ e
              else Z.pos m / 2 ^ (- e))%Z in
    Returned (if neg then (- a)%Z else a)
  | PDec (NaN _ _ _) =>
    Raised (Exn ValueError (py "cannot convert NaN to integer"))
  | PDec (Infinity _) =>
    Raised (Exn OverflowError (py "cannot convert Infinity to integer"))
  | PDec (Finite neg c e) =>
    let a := (if (0 <=? e)%Z then Z.of_N c * 10 ^ e
              else Z.of_N c / 10 ^ (- e))%Z in
    Returned (if neg then (- a)%Z else a)
  | PNone | POther _ =>
    Raised (Exn TypeError
              (py "int() argument must be a string, a bytes-like object or a real number"))
  end.

(** [isinstance(o, (int, float, Decimal))] *)
Definition is_number (o : pyobj) : bool :=
  match o with
  | PBool _ | PInt _ | PFloat _ | PDec _ => true
  | _ => false
  end.

End WithRuntime.

(** A [dict] with [str] keys. *)
Definition pydict := list (pystr * pyobj).

(** [d.get(key)] *)
Fixpoint dict_get (d : pydict) (key : pystr) : option pyobj :=
  match d with
  | [] => None
  | (k, v) :: r => if eqb k key then Some v else dict_get r key
  end.

(** [key in d] *)
Definition dict_has (d : pydict) (key : pystr) : bool :=
  match dict_get d key with Some _ => true | None => false end.

(** [d[key]] *)
Definition dict_item (d : pydict) (key : pystr) : Outcome pyobj :=
  match dict_get d key with
  | Some v => Returned v
  | None => Raised (Exn OtherException (py "KeyError: " ++ key))
  end.

End PyObj.

Export PyObj.

(* ================================================================== *)
(** * The outside world: the language model, the database, the chat *)
(* ================================================================== *)

Module Effects.

Inductive event :=
| ModelCall (prompt : pystr)      (* [model.generate_content(prompt)] *)
| DbExecute (sql : pystr)         (* [session.execute(text(sql))] *)
| ChatAction                      (* [bot.send_chat_action(..., TYPING)] *)
| Reply (text : pystr).           (* [message_obj.reply_text(text)] *)

(** A result row: [dict(zip(columns, row))]. *)
Definition row := pydict.

(** How the collaborators answer, given everything that happened before
    in this request. [generate_content] is the [text] of the model's
    response, [db_execute] the rows that [fetchall] returns; either may
    raise. [get_now_utc] is the reading of the clock. Writing to the log
    is not an event. *)
Record World := {
  getenv_GEMINI_API_KEY : option pystr;
  generate_content : list event -> pystr -> Outcome pystr;
  db_execute : list event -> pystr -> Outcome (list row);
  send_chat_action : list event -> Outcome unit;
  reply_text : list event -> pystr -> Outcome unit;
  get_now_utc : datetime
}.

(** A computation that may raise and that extends the trace of calls. *)
Definition M (A : Type) : Type := list event -> Outcome A * list event.

Definition ret {A} (a : A) : M A := fun tr => (Returned a, tr).

Definition raise {A} (e : exn) : M A := fun tr => (Raised e, tr).

Definition lift {A} (o : Outcome A) : M A := fun tr => (o, tr).

Definition bindM {A B} (m : M A) (k : A -> M B) : M B := fun tr =>
  match m tr with
  | (Returned a, tr') => k a tr'
  | (Raised e, tr') => (Raised e, tr')
  end.

Definition try_exceptM {A} (body : M A) (catches : exn -> bool)
           (handler : exn -> M A) : M A := fun tr =>
  match body tr with
  | (Returned a, tr') => (Returned a, tr')
  | (Raised e, tr') => if catches e then handler e tr' else (Raised e, tr')
  end.

Definition any_exception (e : exn) : bool := true.

Section Calls.
Variable W : World.

Definition call_model (prompt : pystr) : M pystr := fun tr =>
  (generate_content W tr prompt, tr ++ [ModelCall prompt]).

Definition call_db (sql : pystr) : M (list row) := fun tr =>
  (db_execute W tr sql, tr ++ [DbExecute sql]).

Definition call_chat_action : M unit := fun tr =>
  (send_chat_action W tr, tr ++ [ChatAction]).

Definition call_reply (text : pystr) : M unit := fun tr =>
  (reply_text W tr text, tr ++ [Reply text]).

End Calls.

Definition is_model_call (e : event) : bool :=
  match e with ModelCall _ => true | _ => false end.

Definition is_db_call (e : event) : bool :=
  match e with DbExecute _ => true | _ => false end.

(** The f-strings that build prompts. Their text is product copy; the
    sources pass the question, the user id, today's date in Colombia
    and the result rows. *)
Class Prompts := {
  classify_prompt : pystr -> pystr;
  sql_prompt : pystr -> Z -> pystr -> pystr;
  interpret_prompt : pystr -> list row -> pystr
}.

End Effects.

Export Effects.

Notation "x <~ e ;; k" := (bindM e (fun x => k))
  (at level 61, e at next level, right associativity) : py_scope.
Notation "e ;;; k" := (bindM e (fun _ => k))
  (at level 61, right associativity) : py_scope.

(* ================================================================== *)
(** * [bot/handlers/natural_language.py] *)
(* ================================================================== *)

Module NaturalLanguage.

Section WithRuntime.
Context {RT : PyRuntime} {PR : Prompts}.

(** [_process_ai_date(date_str)]; [now_utc] is what [get_now_utc()]
    returns, which every path reads exactly once. *)
Definition _process_ai_date (now_utc : datetime) (date_str : pystr)
  : Outcome (datetime * date) :=
  try_except
    (ai_date <- strptime_ymd date_str ;;
     now_colombia <- convert_utc_to_local now_utc (py "America/Bogota") ;;
     let today_colombia := dt_date now_colombia in
     if date_eqb ai_date today_colombia then
       Returned (now_utc, ai_date)
     else
       Returned (combine ai_date 12 UTC, ai_date))
    is_ValueError
    (fun _ => Returned (now_utc, dt_date now_utc)).

Definition labels : list pystr := [py "register"; py "query"].

Variable W : World.

(** [_classify_intent(text)]; [genai.configure] and the construction of
    the model object make no call and are left out. *)
Definition _classify_intent (text : pystr) : M pystr :=
  match getenv_GEMINI_API_KEY W with
  | None | Some [] =>
    raise (Exn RuntimeError (py "GEMINI_API_KEY not configured"))
  | Some _ =>
    let prompt := classify_prompt text in
    try_exceptM
      (response_text <~ call_model W prompt ;;
       let classification := lower (strip response_text) in
       let classification :=
         strip (replace_char 39 [] (replace_char 34 [] classification)) in
       if negb (mem classification labels) then ret (py "query")
       else ret classification)
      any_exception
      (fun _ => ret (py "query"))
  end.

(** Step 1 of [process_user_text_input]: the classifier call inside the
    router's own [try]. *)
Definition classify_in_router (text : pystr) : M pystr :=
  try_exceptM (_classify_intent text) any_exception
    (fun _ => ret (py "register")).

(** [context.user_data], as far as the router reads it. *)
Record user_data := {
  pending_transaction : bool;
  budget_flow : bool
}.

Definition apology : pystr :=
  py "😅 Ocurrió un error al procesar tu mensaje. Intenta nuevamente.".

(** [process_user_text_input(text, user_id, context, message_obj)];
    [has_message] says that [message_obj] is not [None] (it then has a
    chat), and the two handlers are passed in. *)
Definition process_user_text_input
           (_handle_query _handle_register : pystr -> Z -> M unit)
           (text : pystr) (user_id : Z) (context : user_data)
           (has_message : bool) : M unit :=
  if match text with [] => true | _ => false end
     || match strip text with [] => true | _ => false end
  then ret tt
  else if (len (strip text) <? 3)%Z then ret tt
  else if pending_transaction context || budget_flow context then ret tt
  else
    try_exceptM
      ((if has_message then call_chat_action W else ret tt) ;;;
       intent <~ classify_in_router text ;;
       if eqb intent (py "query") then _handle_query text user_id
       else _handle_register text user_id)
      any_exception
      (fun _ => if has_message then call_reply W apology else ret tt).

End WithRuntime.

End NaturalLanguage.

Export NaturalLanguage.

(* ================================================================== *)
(** * [models.py] and [bot/services/ai_service.py] *)
(* ================================================================== *)

Module AiService.

Inductive CategoryType := INCOME | EXPENSE.

(** [CategoryType.value] *)
Definition CategoryType_value (t : CategoryType) : pystr :=
  match t with
  | INCOME => py "income"
  | EXPENSE => py "expense"
  end.

Definition CategoryType_eqb (a b : CategoryType) : bool :=
  match a, b with
  | INCOME, INCOME | EXPENSE, EXPENSE => true
  | _, _ => false
  end.

Record Category := {
  id : Z;
  user_id : Z;
  name : pystr;
  type : CategoryType;
  is_default : bool
}.

(** The dictionary that [_validate_and_normalize_response] returns. *)
Record ExtractionResult := {
  r_amount : Decimal;
  r_category_id : Z;
  r_description : pystr;
  r_type : pystr;
  r_date : pystr
}.

Definition required_fields : list pystr :=
  [py "amount"; py "category_id"; py "type"; py "description"; py "date"].

Section WithRuntime.
Context {RT : PyRuntime}.

(** The loop over [required_fields] *)
Fixpoint check_required (parsed : pydict) (fields : list pystr)
  : Outcome unit :=
  match fields with
  | [] => Returned tt
  | field :: rest =>
    if negb (dict_has parsed field) then
      Raised (Exn ValueError
                (py "AI response missing required field: " ++ field))
    else check_required parsed rest
  end.

(** "Validate and convert amount" *)
Definition validate_amount (parsed : pydict) : Outcome Decimal :=
  try_except
    (v <- dict_item parsed (py "amount") ;;
     amount <- Decimal_of_str (py_str v) ;;
     nonpositive <- le_zero amount ;;
     if nonpositive : bool then
       Raised (Exn ValueError (py "Amount must be positive"))
     else quantize amount cent)
    (fun e => is_InvalidOperation e || is_ValueError e || is_TypeError e)
    (fun e =>
       Raised (Exn ValueError
                 (py "Invalid amount in AI response: " ++ exn_msg e))).

(** [next((c for c in categories if c.id == category_id), None)] *)
Definition find_category (categories : list Category) (category_id : Z)
  : option Category :=
  List.find (fun c => (id c =? category_id)%Z) categories.

(** "Validate category_id exists" *)
Definition validate_category (parsed : pydict) (categories : list Category)
  : Outcome (Z * Category) :=
  v <- dict_item parsed (py "category_id") ;;
  category_id <- py_int v ;;
  match find_category categories category_id with
  | None =>
    Raised (Exn ValueError
              (py "Category ID " ++ str_of_Z category_id
               ++ py " not found in user's categories"))
  | Some category => Returned (category_id, category)
  end.

(** "Validate type" and "Validate type matches category type" *)
Definition validate_type (parsed : pydict) (category_id : Z)
           (category : Category) : Outcome pystr :=
  v <- dict_item parsed (py "type") ;;
  let transaction_type := lower (py_str v) in
  if negb (mem transaction_type [py "expense"; py "income"]) then
    Raised (Exn ValueError
              (py "Invalid type: " ++ transaction_type
               ++ py ". Must be 'expense' or 'income'"))
  else
    let expected_category_type :=
      if eqb transaction_type (py "expense") then EXPENSE else INCOME in
    if negb (CategoryType_eqb (type category) expected_category_type) then
      Raised (Exn ValueError
                (py "Category " ++ name category ++ py " (ID: "
                 ++ str_of_Z category_id ++ py ") is of type "
                 ++ CategoryType_value (type category)
                 ++ py ", but transaction type is " ++ transaction_type))
    else Returned transaction_type.

(** "Validate and normalize date"; [today] is [date.today()]. *)
Definition validate_date (parsed : pydict) (today : date) : Outcome pystr :=
  v <- dict_item parsed (py "date") ;;
  let date_str := strip (py_str v) in
  try_except
    (parsed_date <- fromisoformat date_str ;;
     if date_gtb parsed_date today then
       Raised (Exn ValueError
                 (py "Date " ++ date_str ++ py " is in the future"))
     else
       oldest <- sub_days today 3650 ;;
       if date_ltb parsed_date oldest then
         Raised (Exn ValueError
                   (py "Date " ++ date_str ++ py " is too far in the past"))
       else Returned (strftime_ymd parsed_date))
    is_ValueError
    (fun e =>
       if contains (py "Invalid isoformat") (exn_msg e)
          || contains (py "does not match format") (exn_msg e)
       then
         Raised (Exn ValueError
                   (py "Invalid date format: " ++ date_str
                    ++ py ". Expected YYYY-MM-DD format"))
       else Raised e).

(** [_validate_and_normalize_response(parsed, categories)] *)
Definition _validate_and_normalize_response
           (today : date) (parsed : pydict) (categories : list Category)
  : Outcome ExtractionResult :=
  _ <- check_required parsed required_fields ;;
  amount <- validate_amount parsed ;;
  cc <- validate_category parsed categories ;;
  let '(category_id, category) := cc in
  transaction_type <- validate_type parsed category_id category ;;
  date_str <- validate_date parsed today ;;
  let description :=
    strip (py_str (match dict_get parsed (py "description") with
                   | Some v => v
                   | None => PStr []
                   end)) in
  Returned {| r_amount := amount;
              r_category_id := category_id;
              r_description := description;
              r_type := transaction_type;
              r_date := date_str |}.

End WithRuntime.

End AiService.

Export AiService.

(* ================================================================== *)
(** * [bot/services/analytics_service.py] *)
(* ================================================================== *)

Module AnalyticsService.

Definition REFUSAL : pystr :=
  py "⛔ Lo siento, soy un analista de datos y solo puedo **leer y consultar** tu información. Para borrar datos, por favor usa los comandos manuales o el menú.".

Definition destructive_keywords : list pystr :=
  [py "borrar"; py "eliminar"; py "delete"; py "drop";
   py "cambiar"; py "actualizar"; py "update"; py "modificar";
   py "limpiar"; py "vaciar"; py "truncate"; py "clear";
   py "remover"; py "quitar"; py "remove"].

Definition dangerous_keywords : list pystr :=
  [py "DROP"; py "DELETE"; py "INSERT"; py "UPDATE"; py "TRUNCATE";
   py "ALTER"; py "CREATE"; py "GRANT"; py "REVOKE"; py "EXEC"; py "EXECUTE";
   py "MERGE"; py "COPY"; py "CALL"; py "COMMIT"; py "ROLLBACK"].

Definition dangerous_functions : list pystr :=
  [py "PG_"; py "EXEC"; py "EXECUTE"].

Definition ACTION_NOT_ALLOWED : pystr := py "ACTION_NOT_ALLOWED".

Definition fence : pystr := [96; 96; 96]%N.

Section WithRuntime.
Context {RT : PyRuntime} {PR : Prompts}.

(** [_has_destructive_intent(question)] *)
Definition _has_destructive_intent (question : pystr) : bool :=
  let question_lower := lower question in
  existsb (fun keyword => contains keyword question_lower)
          destructive_keywords.

(** [_validate_sql_safety(sql_query)] *)
Definition _validate_sql_safety (sql_query : pystr) : bool * option pystr :=
  let sql_upper := strip (upper sql_query) in
  if negb (startswith (py "SELECT") sql_upper) then
    (false, Some (py "La consulta debe ser solo SELECT"))
  else
    match List.find (fun keyword => contains keyword sql_upper)
                    dangerous_keywords with
    | Some keyword =>
      (false, Some (py "No se permiten operaciones " ++ keyword))
    | None =>
      if contains (py ";") sql_query then
        (false, Some (py "No se permiten múltiples consultas"))
      else
        match List.find (fun func_pattern => contains func_pattern sql_upper)
                        dangerous_functions with
        | Some _ =>
          (false, Some (py "No se permiten llamadas a funciones del sistema"))
        | None => (true, None)
        end
    end.

Variable W : World.

(** The cleaning of the model's answer in [_generate_sql] *)
Definition clean_sql (text : pystr) : pystr :=
  let sql_query := strip text in
  let sql_query :=
    if contains (fence ++ py "sql") (lower sql_query) then
      let sql_start := (find (fence ++ py "sql") (lower sql_query) 0 + 6)%Z in
      let sql_end := find fence (lower sql_query) sql_start in
      strip (slice sql_query sql_start sql_end)
    else if contains fence sql_query then
      let sql_start := (find fence sql_query 0 + 3)%Z in
      let sql_end := find fence sql_query sql_start in
      strip (slice sql_query sql_start sql_end)
    else sql_query in
  strip (rstrip_char 59 sql_query).

(** [_generate_sql(question, user_id)] *)
Definition _generate_sql (question : pystr) (user_id : Z) : M pystr :=
  let now_utc := get_now_utc W in
  now_colombia <~ lift (convert_utc_to_local now_utc (py "America/Bogota")) ;;
  let today_colombia_str := strftime_ymd (dt_date now_colombia) in
  let today_colombia_date := dt_date now_colombia in
  _ <~ lift (sub_days today_colombia_date 1) ;;
  _ <~ lift (sub_days today_colombia_date 2) ;;
  let prompt := sql_prompt question user_id today_colombia_str in
  try_exceptM
    (text <~ call_model W prompt ;;
     ret (clean_sql text))
    any_exception
    (fun e =>
       raise (Exn RuntimeError
                (py "Error generando consulta SQL: " ++ exn_msg e))).

Definition is_SQLAlchemyError (e : exn) : bool :=
  match exn_cls e with SQLAlchemyError => true | _ => false end.

(** [_execute_safe_query(sql_query, user_id)]; the warning about a missing
    user id only writes to the log. *)
Definition _execute_safe_query (sql_query : pystr) (user_id : Z)
  : M (list row) :=
  let '(is_safe, error_message) := _validate_sql_safety sql_query in
  if negb is_safe then
    raise (Exn ValueError
             (py "Consulta SQL no segura: "
              ++ match error_message with Some m => m | None => py "None" end))
  else
    try_exceptM
      (call_db W sql_query)
      any_exception
      (fun e =>
         if is_SQLAlchemyError e then
           raise (Exn RuntimeError
                    (py "Error ejecutando consulta: " ++ exn_msg e))
         else
           raise (Exn RuntimeError (py "Error inesperado: " ++ exn_msg e))).

(** [str(v).upper() == 'ACTION_NOT_ALLOWED'] *)
Definition is_not_allowed (v : pyobj) : bool :=
  eqb (upper (py_str v)) ACTION_NOT_ALLOWED.

(** The answer that is put together when the model fails in
    [_interpret_results]. Nothing in it raises, so the inner [except]
    with its own message is never taken. *)
Definition fallback_answer (query_results : list row) : pystr :=
  match query_results with
  | [] => py "No encontré información para tu pregunta. 😅"
  | first_result :: _ =>
    match first_result with
    | [(key, value)] =>
      if is_number value then
        replace_char 88 (py ".")
          (replace_char 46 (py ",")
             (replace_char 44 (py "X")
                (py "El resultado es: $" ++ format_comma_2f (py_str value))))
      else py "El resultado es: " ++ py_str value
    | _ =>
      py "Encontré " ++ str_of_Z (Z.of_nat (List.length query_results))
      ++ py " resultado(s). Usa /dashboard para ver más detalles."
    end
  end.

(** [_interpret_results(question, query_results)] *)
Definition _interpret_results (question : pystr) (query_results : list row)
  : M pystr :=
  if existsb (fun result => existsb (fun kv => is_not_allowed (snd kv)) result)
             query_results
  then ret REFUSAL
  else
    let prompt := interpret_prompt question query_results in
    try_exceptM
      (text <~ call_model W prompt ;;
       ret (strip text))
      any_exception
      (fun _ => ret (fallback_answer query_results)).

(** [answer_question(question, user_id)] *)
Definition answer_question (question : pystr) (user_id : Z) : M pystr :=
  if match question with [] => true | _ => false end
     || match strip question with [] => true | _ => false end
  then raise (Exn ValueError (py "Question cannot be empty"))
  else
    try_exceptM
      (if _has_destructive_intent question then ret REFUSAL
       else
         sql_query <~ _generate_sql question user_id ;;
         let sql_upper := upper (strip sql_query) in
         if contains ACTION_NOT_ALLOWED sql_upper
            || contains (py "SELECT 'ACTION_NOT_ALLOWED'") sql_upper
         then ret REFUSAL
         else
           query_results <~ _execute_safe_query sql_query user_id ;;
           if match query_results with
              | first_result :: _ =>
                existsb (fun kv => is_not_allowed (snd kv)) first_result
              | [] => false
              end
           then ret REFUSAL
           else _interpret_results question query_results)
      (fun e => negb (is_ValueError e))
      (fun e =>
         raise (Exn RuntimeError
                  (py "Error procesando tu pregunta: " ++ exn_msg e))).

End WithRuntime.

End AnalyticsService.

Export AnalyticsService.

(* ================================================================== *)
(** * A small world to run the definitions in *)
(* ================================================================== *)

Module Demo.

Definition prompts : Prompts := {|
  classify_prompt := fun text => py "classify: " ++ text;
  sql_prompt := fun question _ today => py "sql " ++ today ++ py ": " ++ question;
  interpret_prompt := fun question _ => py "interpret: " ++ question
|}.

(** The model answers every prompt with a harmless query and the
    database with no rows. *)
Definition world : World := {|
  getenv_GEMINI_API_KEY := Some (py "test-key");
  generate_content := fun _ _ => Returned (py "SELECT 1");
  db_execute := fun _ _ => Returned [];
  send_chat_action := fun _ => Returned tt;
  reply_text := fun _ _ => Returned tt;
  get_now_utc := Datetime (Date 2025 6 15) 15 30 12 250 UTC
|}.

(** No API key in the environment. *)
Definition world_without_key : World := {|
  getenv_GEMINI_API_KEY := None;
  generate_content := generate_content world;
  db_execute := db_execute world;
  send_chat_action := send_chat_action world;
  reply_text := reply_text world;
  get_now_utc := get_now_utc world
|}.

(** The provider is down. *)
Definition world_model_down : World := {|
  getenv_GEMINI_API_KEY := Some (py "test-key");
  generate_content :=
    fun _ _ => Raised (Exn OtherException (py "503 Service Unavailable"));
  db_execute := db_execute world;
  send_chat_action := send_chat_action world;
  reply_text := reply_text world;
  get_now_utc := get_now_utc world
|}.

End Demo.

(* ================================================================== *)
(** * Notions used in the statements *)
(* ================================================================== *)

Module Statements.

(** An outcome that is a [ValueError]. *)
Definition raises_ValueError {A} (o : Outcome A) : Prop :=
  exists msg, o = Raised (Exn ValueError msg).

(** A date that [date(y, m, d)] accepts. *)
Definition valid_date (d : date) : Prop :=
  (1 <= year d <= 9999 /\ 1 <= month d <= 12
   /\ 1 <= day d <= _days_in_month (year d) (month d))%Z.

(** Today's date on the clock of Bogota. *)
Definition today_colombia (now_utc : datetime) : Outcome date :=
  now_colombia <- convert_utc_to_local now_utc (py "America/Bogota") ;;
  Returned (dt_date now_colombia).

(** The instant at which the clock of Bogota shows noon on [d], on the
    UTC clock. *)
Definition local_noon_as_utc (d : date) : Outcome datetime :=
  astimezone (combine d 12 Bogota) UTC.

(** [GEMINI_API_KEY] is set and not empty. *)
Definition key_configured (W : World) : Prop :=
  exists c k, getenv_GEMINI_API_KEY W = Some (c :: k).

Section WithRuntime.
Context {RT : PyRuntime}.

(** The conditions under which a generated query must not run: it does
    not start with SELECT once uppercased and stripped; or a denied
    keyword, a semicolon or the prefix PG_ is in it, as generated or
    after uppercasing. *)
Definition unsafe_sql (sql : pystr) : Prop :=
  startswith (py "SELECT") (strip (upper sql)) = false
  \/ (exists keyword, In keyword dangerous_keywords
        /\ (contains keyword sql = true
            \/ contains keyword (strip (upper sql)) = true))
  \/ contains (py ";") sql = true
  \/ (contains (py "PG_") sql = true
      \/ contains (py "PG_") (strip (upper sql)) = true).

(** The model's answer after the clean-up in [_classify_intent]. *)
Definition cleaned (response_text : pystr) : pystr :=
  strip (replace_char 39 [] (replace_char 34 [] (lower (strip response_text)))).

(** The checks that come before the date check pass. *)
Definition reaches_date_check (parsed : pydict) (categories : list Category)
           (amount : Decimal) (category_id : Z) (transaction_type : pystr)
  : Prop :=
  check_required parsed required_fields = Returned tt
  /\ validate_amount parsed = Returned amount
  /\ exists category,
      validate_category parsed categories = Returned (category_id, category)
      /\ validate_type parsed category_id category = Returned transaction_type.

End WithRuntime.

End Statements.

Export Statements.

(* ================================================================== *)
(** * Checks by computation *)
(* ================================================================== *)

Module Checks.

(** A word of the deny lists: it is its own uppercase and has no white
    space at either end. *)
Definition plain_word {RT : PyRuntime} (w : pystr) : bool :=
  eqb (upper w) w
  && match w with c :: _ => negb (isspace c) | [] => false end
  && match rev w with c :: _ => negb (isspace c) | [] => false end.

Definition is_ascii_digit (c : N) : bool := in_range 48 57 c.

(** A check of every number in a block of [2 ^ k] numbers from [lo]. *)
Fixpoint all_in_block (f : Z -> bool) (k : nat) (lo : Z) : bool :=
  match k with
  | O => f lo
  | S k' => all_in_block f k' lo && all_in_block f k' (lo + 2 ^ Z.of_nat k')%Z
  end.

(** The year as four ASCII digits. *)
Definition pad4_ok (y : Z) : bool :=
  match zero_pad 4 y with
  | [a; b; c; d] =>
    in_range 48 57 a && in_range 48 57 b && in_range 48 57 c
    && in_range 48 57 d
    && (Z.of_N ((a - 48) * 1000 + (b - 48) * 100 + (c - 48) * 10 + (d - 48))
        =? y)%Z
  | _ => false
  end.

Definition months12 : list Z := map Z.of_nat (seq 1 12).
Definition days31 : list Z := map Z.of_nat (seq 1 31).

(** Month and day as two ASCII digits each. *)
Definition md_ok {RT : PyRuntime} (m d : Z) : bool :=
  match match_md (zero_pad 2 m ++ py "-" ++ zero_pad 2 d) with
  | Some (m', d', []) => (m' =? m)%Z && (d' =? d)%Z
  | _ => false
  end.

(** The last steps of [_ord2ymd]: month and day from the day of the
    year, counted from zero. *)
Definition month_day_of (n : Z) (leapyear : bool) : Z * Z :=
  let m := Z.shiftr (n + 50) 5 in
  let preceding :=
    (_DAYS_BEFORE_MONTH m + (if (2 <? m) && leapyear then 1 else 0))%Z in
  if (n <? preceding)%Z then
    ((m - 1)%Z,
     (n - (preceding
           - (_DAYS_IN_MONTH (m - 1)
              + (if (m - 1 =? 2) && leapyear then 1 else 0))) + 1)%Z)
  else (m, (n - preceding + 1)%Z).

Definition month_day_ok (leapyear : bool) (n : Z) : bool :=
  let '(m, d) := month_day_of n leapyear in
  ((1 <=? m) && (m <=? 12) && (1 <=? d)
   && (d <=? _DAYS_IN_MONTH m + (if (m =? 2) && leapyear then 1 else 0))
   && (_DAYS_BEFORE_MONTH m + (if (2 <? m) && leapyear then 1 else 0) + d
       =? n + 1))%Z.

End Checks.

Export Checks.

(* ================================================================== *)
(** * Examples *)
(* ================================================================== *)

Module Examples.

(** The example of the specification: category 1 is an income category
    and the model says "expense". *)
Definition mismatch_example : pydict :=
  [(py "amount", PInt 20000); (py "category_id", PInt 1);
   (py "type", PStr (py "expense")); (py "description", PStr (py "almuerzo"));
   (py "date", PStr (py "2025-06-14"))].

Definition income_category : Category :=
  {| id := 1; user_id := 7; name := py "Salario"; type := INCOME;
     is_default := true |}.

(** "Gaste 20k en almuerzo ayer", as the model answers it on 15 June
    2025. *)
Definition accepted_example : pydict :=
  [(py "amount", PInt 20000); (py "category_id", PInt 1);
   (py "type", PStr (py "expense")); (py "description", PStr (py "almuerzo"));
   (py "date", PStr (py " 2025-06-14 "))].

Definition expense_category : Category :=
  {| id := 1; user_id := 7; name := py "Comida"; type := EXPENSE;
     is_default := true |}.

End Examples.

Export Examples.

(* ================================================================== *)
(** * Properties *)
(* ================================================================== *)

(** ** Strings *)

Lemma eqb_eq (a b : pystr) : eqb a b = true <-> a = b.
Proof.
  revert b; induction a as [|x a IH]; intros [|y b]; simpl;
    try (split; [discriminate | discriminate]); try tauto.
  rewrite andb_true_iff, N.eqb_eq, IH.
  split; [intros [-> ->]; reflexivity | intros H; inversion H; auto].
Qed.

Lemma startswith_app (p s : pystr) :
  startswith p s = true <-> exists r, s = p ++ r.
Proof.
  revert s; induction p as [|x p IH]; intros s; simpl.
  - split; [exists s; reflexivity | reflexivity].
  - destruct s as [|y s].
    + split; [discriminate | intros [r H]; discriminate].
    + rewrite andb_true_iff, N.eqb_eq, IH. split.
      * intros [-> [r ->]]. exists r; reflexivity.
      * intros [r H]. inversion H; subst. split; [reflexivity | eauto].
Qed.

(** [sub in s] holds exactly when [s] is [a ++ sub ++ b]. *)
Lemma contains_app (sub s : pystr) :
  contains sub s = true <-> exists a b, s = a ++ sub ++ b.
Proof.
  induction s as [|y s IH].
  - simpl. rewrite orb_false_r, startswith_app. split.
    + intros [r H]. exists [], r. exact H.
    + intros [a [b H]]. destruct a; simpl in H.
      * exists b; exact H.
      * discriminate.
  - change (contains sub (y :: s))
      with (startswith sub (y :: s) || contains sub s).
    rewrite orb_true_iff, startswith_app, IH. split.
    + intros [[r H] | [a [b H]]].
      * exists [], r; exact H.
      * exists (y :: a), b. simpl. now rewrite H.
    + intros [a [b H]]. destruct a as [|x a]; simpl in H.
      * left. exists b; exact H.
      * right. inversion H; subst. eauto.
Qed.

Lemma contains_In (sub s : pystr) (c : N) :
  contains sub s = true -> In c sub -> In c s.
Proof.
  rewrite contains_app. intros [a [b ->]] H.
  rewrite !in_app_iff. auto.
Qed.

Lemma lstrip_all_space (s : pystr) :
  forallb isspace s = true -> lstrip s = [].
Proof.
  induction s as [|c s IH]; simpl; [reflexivity|].
  rewrite andb_true_iff. intros [-> H]. auto.
Qed.

Lemma lstrip_nil (s : pystr) : lstrip s = [] -> forallb isspace s = true.
Proof.
  induction s as [|c s IH]; simpl; [reflexivity|].
  destruct (isspace c); [exact IH | discriminate].
Qed.

(** What [lstrip] leaves starts with a character that is not white. *)
Lemma lstrip_head (s : pystr) :
  match lstrip s with
  | [] => True
  | c :: _ => isspace c = false
  end.
Proof.
  induction s as [|c s IH]; simpl; [exact I|].
  destruct (isspace c) eqn:E; [exact IH | exact E].
Qed.

Lemma strip_all_space (s : pystr) :
  forallb isspace s = true -> strip s = [].
Proof.
  intros H. unfold strip. now rewrite (lstrip_all_space H).
Qed.

Lemma forallb_rev {A} (f : A -> bool) (l : list A) :
  forallb f (rev l) = forallb f l.
Proof.
  induction l as [|x l IH]; simpl; [reflexivity|].
  rewrite forallb_app, IH. simpl. rewrite andb_true_r. apply andb_comm.
Qed.

Lemma strip_nil (s : pystr) : strip s = [] -> forallb isspace s = true.
Proof.
  unfold strip, rstrip. intros H.
  assert (H1 : lstrip (rev (lstrip s)) = []).
  { rewrite <- (rev_involutive (lstrip (rev (lstrip s)))), H. reflexivity. }
  apply lstrip_nil in H1. rewrite forallb_rev in H1.
  pose proof (lstrip_head s) as Hh.
  destruct (lstrip s) as [|c t] eqn:E.
  - now apply lstrip_nil.
  - simpl in H1. rewrite Hh in H1. discriminate.
Qed.

(** Stripping on the left keeps everything from the first character
    that is not white. *)
Lemma lstrip_app_nonspace (a x : pystr) (c : N) :
  isspace c = false -> lstrip (a ++ c :: x) = lstrip a ++ c :: x.
Proof.
  intros Hc. induction a as [|h a IH]; simpl.
  - now rewrite Hc.
  - destruct (isspace h); [exact IH | reflexivity].
Qed.

Lemma rstrip_app_nonspace (x b : pystr) (c : N) :
  isspace c = false -> rstrip (x ++ c :: b) = x ++ c :: rstrip b.
Proof.
  intros Hc. unfold rstrip.
  rewrite rev_app_distr. simpl. rewrite <- app_assoc. simpl.
  rewrite (lstrip_app_nonspace _ _ Hc).
  rewrite rev_app_distr. simpl. rewrite rev_involutive, <- app_assoc.
  reflexivity.
Qed.

(** A word that neither starts nor ends with white space survives
    [strip]. *)
Lemma contains_strip (sub s : pystr) (c1 c2 : N) (mid1 mid2 : pystr) :
  sub = c1 :: mid1 -> sub = mid2 ++ [c2] ->
  isspace c1 = false -> isspace c2 = false ->
  contains sub s = true -> contains sub (strip s) = true.
Proof.
  intros E1 E2 H1 H2. rewrite !contains_app. intros [a [b ->]].
  exists (lstrip a), (rstrip b). unfold strip.
  assert (Hl : lstrip (a ++ sub ++ b) = lstrip a ++ sub ++ b).
  { rewrite E1. simpl. apply (lstrip_app_nonspace _ _ H1). }
  rewrite Hl, E2.
  replace (lstrip a ++ (mid2 ++ [c2]) ++ b)
    with ((lstrip a ++ mid2) ++ c2 :: b)
    by (rewrite <- !app_assoc; reflexivity).
  rewrite (rstrip_app_nonspace _ _ H2), <- !app_assoc. reflexivity.
Qed.

Lemma existsb_find {A} (f : A -> bool) (l : list A) :
  existsb f l = true -> exists x, List.find f l = Some x.
Proof.
  induction l as [|x l IH]; simpl; [discriminate|].
  destruct (f x); [eauto | exact IH].
Qed.

Section StringCase.
Context {RT : PyRuntime}.

Lemma upper_app (a b : pystr) : upper (a ++ b) = upper a ++ upper b.
Proof. apply flat_map_app. Qed.

(** A substring that is its own uppercase is still there after
    [upper]. *)
Lemma contains_upper (sub s : pystr) :
  upper sub = sub -> contains sub s = true -> contains sub (upper s) = true.
Proof.
  intros Hu. rewrite !contains_app. intros [a [b ->]].
  exists (upper a), (upper b). now rewrite !upper_app, Hu.
Qed.

Lemma isspace_ascii_lower (c : N) : isspace c = true -> ascii_lower c = c.
Proof.
  unfold isspace, ascii_lower. intros H.
  destruct ((65 <=? c)%N && (c <=? 90)%N) eqn:E; [|reflexivity].
  apply andb_true_iff in E. destruct E as [E1 E2].
  apply N.leb_le in E1, E2.
  repeat (apply orb_true_iff in H; destruct H as [H|H]);
    try (apply andb_true_iff in H; destruct H as [Ha Hb];
         apply N.leb_le in Ha, Hb; lia);
    apply N.eqb_eq in H; lia.
Qed.

Lemma lower_from_all_space (before s : pystr) :
  forallb isspace s = true -> lower_from before s = s.
Proof.
  revert before; induction s as [|c s IH]; intros before; simpl;
    [reflexivity|].
  rewrite andb_true_iff. intros [Hc Hs].
  rewrite (IH _ Hs), (isspace_ascii_lower Hc), (unicode_lower_space _ _ Hc).
  now destruct (c <? 128)%N.
Qed.

(** White space stays white space under [lower]. *)
Lemma lower_all_space (s : pystr) : forallb isspace s = true -> lower s = s.
Proof. apply lower_from_all_space. Qed.

End StringCase.

(** ** The analytics service *)

Section Analytics.
Context {RT : PyRuntime} {PR : Prompts}.
Variable W : World.

Lemma deny_lists_plain :
  forallb plain_word (dangerous_functions ++ dangerous_keywords) = true.
Proof. vm_compute. reflexivity. Qed.

(** The checks run on the uppercased, stripped text, so a denied word in
    the text as it was generated is found there too. *)
Lemma plain_word_survives (w sql : pystr) :
  plain_word w = true ->
  contains w sql = true -> contains w (strip (upper sql)) = true.
Proof.
  unfold plain_word. rewrite !andb_true_iff. intros [[Hu Hh] Hl] Hc.
  apply eqb_eq in Hu.
  destruct w as [|c1 mid1]; [discriminate|].
  destruct (rev (c1 :: mid1)) as [|c2 r] eqn:Er; [discriminate|].
  apply negb_true_iff in Hh, Hl.
  assert (E2 : c1 :: mid1 = rev r ++ [c2]).
  { rewrite <- (rev_involutive (c1 :: mid1)), Er. reflexivity. }
  eapply contains_strip; eauto using contains_upper.
Qed.

Lemma denied_word_survives (w sql : pystr) :
  In w (dangerous_functions ++ dangerous_keywords) ->
  contains w sql = true -> contains w (strip (upper sql)) = true.
Proof.
  intros Hin. apply plain_word_survives.
  pose proof deny_lists_plain as H. rewrite forallb_forall in H. auto.
Qed.

Lemma validate_sql_safety_unsafe (sql : pystr) :
  unsafe_sql sql ->
  exists reason, _validate_sql_safety sql = (false, Some reason).
Proof.
  intros H. unfold _validate_sql_safety.
  destruct (startswith (py "SELECT") (strip (upper sql))) eqn:Es;
    cbn [negb]; [|eauto].
  destruct (List.find (fun keyword => contains keyword (strip (upper sql)))
                 dangerous_keywords) eqn:Ek; [eauto|].
  destruct (contains (py ";") sql) eqn:Esc; [eauto|].
  destruct (List.find (fun func_pattern => contains func_pattern (strip (upper sql)))
                 dangerous_functions) eqn:Ef; [eauto|].
  exfalso. destruct H as [H | [[kw [Hin Hc]] | [H | H]]].
  - congruence.
  - assert (Hu : contains kw (strip (upper sql)) = true).
    { destruct Hc as [Hc | Hc]; [|exact Hc].
      apply denied_word_survives; [apply in_or_app; auto | exact Hc]. }
    pose proof (@find_none _ _ _ Ek _ Hin) as Hn. simpl in Hn. congruence.
  - congruence.
  - assert (Hu : contains (py "PG_") (strip (upper sql)) = true).
    { destruct H as [Hc | Hc]; [|exact Hc].
      apply denied_word_survives; [left; reflexivity | exact Hc]. }
    assert (Hin : In (py "PG_") dangerous_functions) by (left; reflexivity).
    pose proof (@find_none _ _ _ Ef _ Hin) as Hn. simpl in Hn. congruence.
Qed.

(** C1. A generated query that does not start with SELECT once stripped
    and uppercased, or that contains a denied keyword, a semicolon or the
    prefix PG_, makes [_execute_safe_query] raise a [ValueError] that
    says the query is not safe, and the trace of calls is what it was:
    the database is not reached. *)
Theorem execute_safe_query_rejects_unsafe
        (sql : pystr) (user_id : Z) (tr : list event) :
  unsafe_sql sql ->
  exists reason,
    _execute_safe_query W sql user_id tr
    = (Raised (Exn ValueError (py "Consulta SQL no segura: " ++ reason)), tr).
Proof.
  intros H. destruct (validate_sql_safety_unsafe H) as [reason E].
  exists reason. unfold _execute_safe_query. rewrite E. reflexivity.
Qed.

Lemma destructive_keywords_not_blank :
  forallb (fun kw => match kw with c :: _ => negb (isspace c) | [] => false end)
          destructive_keywords = true.
Proof. vm_compute. reflexivity. Qed.

(** A question that holds a destructive keyword is not blank. *)
Lemma destructive_not_blank (question : pystr) :
  _has_destructive_intent question = true -> strip question <> [].
Proof.
  unfold _has_destructive_intent. rewrite existsb_exists.
  intros [kw [Hin Hc]] Hs.
  apply strip_nil in Hs.
  rewrite (lower_all_space Hs) in Hc.
  pose proof destructive_keywords_not_blank as Hk.
  rewrite forallb_forall in Hk. specialize (Hk kw Hin).
  destruct kw as [|c kw]; [discriminate|].
  apply negb_true_iff in Hk.
  assert (Hi : In c question) by (eapply contains_In; [exact Hc | left; reflexivity]).
  rewrite forallb_forall in Hs. rewrite (Hs c Hi) in Hk. discriminate.
Qed.

(** C2. A question that is not empty and whose lowercased text contains
    one of the destructive keywords gets the fixed refusal from
    [answer_question], and the trace of calls is what it was: the model
    is not asked for SQL. *)
Theorem answer_question_refuses_destructive
        (question : pystr) (user_id : Z) (tr : list event) :
  question <> [] ->
  (exists keyword, In keyword destructive_keywords
                   /\ contains keyword (lower question) = true) ->
  answer_question W question user_id tr = (Returned REFUSAL, tr).
Proof.
  intros Hne Hk.
  assert (Hd : _has_destructive_intent question = true).
  { unfold _has_destructive_intent. now apply existsb_exists. }
  pose proof (destructive_not_blank Hd) as Hs.
  unfold answer_question.
  destruct question as [|c q]; [congruence|].
  destruct (strip (c :: q)) as [|c' s'] eqn:Es; [congruence|].
  cbv beta iota. unfold orb, try_exceptM. rewrite Hd. reflexivity.
Qed.

(** C10. For a question that is empty or all white space,
    [answer_question] raises [ValueError] with the trace of calls
    untouched, so before the destructive-intent check, the model and the
    database; and whenever [answer_question] returns a string, the
    question was not blank. *)
Theorem answer_question_rejects_blank
        (question : pystr) (user_id : Z) (tr : list event) :
  (forallb isspace question = true ->
   answer_question W question user_id tr
   = (Raised (Exn ValueError (py "Question cannot be empty")), tr))
  /\ (forall answer tr',
        answer_question W question user_id tr = (Returned answer, tr') ->
        question <> [] /\ forallb isspace question = false).
Proof.
  assert (Hb : forallb isspace question = true ->
               answer_question W question user_id tr
               = (Raised (Exn ValueError (py "Question cannot be empty")), tr)).
  { intros H. unfold answer_question. rewrite (strip_all_space H).
    now rewrite orb_true_r. }
  split; [exact Hb|].
  intros answer tr' E.
  destruct (forallb isspace question) eqn:Ef.
  - rewrite (Hb eq_refl) in E. discriminate.
  - split; [|reflexivity]. intros ->. discriminate.
Qed.

End Analytics.

(** A stacked query is refused before the database sees it. *)
Lemma execute_safe_query_rejects_unsafe_witness :
  exists reason,
    @_execute_safe_query ascii_runtime Demo.world
      (py "SELECT 1; DROP TABLE transactions") 7 []
    = (Raised (Exn ValueError (py "Consulta SQL no segura: " ++ reason)), []).
Proof.
  apply (@execute_safe_query_rejects_unsafe ascii_runtime Demo.world).
  right; right; left. vm_compute. reflexivity.
Defined.

(** "quiero borrar todo" is refused without a model call. *)
Lemma answer_question_refuses_destructive_witness :
  @answer_question ascii_runtime Demo.prompts Demo.world
    (py "quiero borrar todo") 7 []
  = (Returned REFUSAL, []).
Proof.
  apply (@answer_question_refuses_destructive ascii_runtime Demo.prompts Demo.world).
  - discriminate.
  - exists (py "borrar"). split; [left; reflexivity | vm_compute; reflexivity].
Defined.

(** Three blanks are not a question. *)
Lemma answer_question_rejects_blank_witness :
  @answer_question ascii_runtime Demo.prompts Demo.world (py "   ") 7 []
  = (Raised (Exn ValueError (py "Question cannot be empty")), []).
Proof.
  apply (proj1 (@answer_question_rejects_blank
                  ascii_runtime Demo.prompts Demo.world (py "   ") 7 [])).
  reflexivity.
Defined.

(** ** Amounts *)

Section AmountsProperties.
Context {RT : PyRuntime}.

Lemma Decimal_of_str_raises (s : pystr) (e : exn) :
  Decimal_of_str s = Raised e -> e = conversion_syntax.
Proof.
  unfold Decimal_of_str.
  destruct (replace_char 95 [] (strip s)) as [|c r].
  - destruct (parse_number []) as [[? ?]|];
      [discriminate|].
    destruct (_ || _); [discriminate|].
    destruct (parse_nan []) as [[? ?]|]; [discriminate|].
    now intros [= <-].
  - set (sb := match c with
               | 45%N => (true, r) | 43%N => (false, r) | _ => (false, c :: r)
               end).
    assert (Hg : forall sign body,
               match parse_number body with
               | Some (c0, e0) => Returned (Finite sign c0 e0)
               | None =>
                 if eqb (map ascii_lower body) (py "inf")
                    || eqb (map ascii_lower body) (py "infinity")
                 then Returned (Infinity sign)
                 else match parse_nan body with
                      | Some (sig, p) => Returned (NaN sign sig p)
                      | None => Raised conversion_syntax
                      end
               end = Raised e -> e = conversion_syntax).
    { intros sign body.
      destruct (parse_number body) as [[? ?]|]; [discriminate|].
      destruct (_ || _); [discriminate|].
      destruct (parse_nan body) as [[? ?]|]; [discriminate|].
      now intros [= <-]. }
    destruct c as [|p]; [apply Hg|].
    do 6 (destruct p as [p|p|]; try apply Hg).
Qed.

Lemma quantize_raises (d x : Decimal) (e : exn) :
  quantize d x = Raised e -> e = invalid_operation.
Proof.
  unfold quantize.
  destruct d as [s c ex|s|s g p], x as [s' c' ex'|s'|s' g' p'];
    repeat match goal with
           | |- context [if ?b then _ else _] => destruct b
           end;
    try discriminate; now intros [= <-].
Qed.

(** What [quantize] to cents returns has exponent [-2] and the sign of
    its argument. *)
Lemma quantize_cent_shape (d q : Decimal) :
  quantize d cent = Returned q ->
  match d with
  | Finite s _ _ => exists c, q = Finite s c (-2)
  | Infinity _ => False
  | NaN _ g _ => g = false /\ exists s p, q = NaN s false p
  end.
Proof.
  unfold quantize, cent. destruct d as [s c e|s|s g p].
  - cbn [negb andb]. change (negb ((Etiny <=? -2)%Z && (-2 <=? Emax)%Z))
      with false. cbv iota.
    destruct (c =? 0)%N; [intros H; inversion H; eauto|].
    destruct (Emax <? adjusted c e)%Z; [discriminate|].
    destruct (prec <? adjusted c e - -2 + 1)%Z; [discriminate|].
    destruct (Emax <? adjusted (rescale c e (-2)) (-2))%Z; [discriminate|].
    destruct (prec <? ndigits (rescale c e (-2)))%Z; [discriminate|].
    intros H; inversion H; eauto.
  - discriminate.
  - destruct g; [discriminate|]. intros H; inversion H.
    split; [reflexivity|]. unfold fix_nan. eauto.
Qed.

(** Whatever [parse_amount] returns is a finite, unsigned number of
    cents. *)
Lemma parse_amount_two_places (value : pystr) (q : Decimal) :
  parse_amount value = Returned q -> exists c, q = Finite false c (-2).
Proof.
  unfold parse_amount.
  destruct (Decimal_of_str _) as [d|e]; [|discriminate]. cbn [bind].
  destruct d as [s c e|s|s g p]; cbn [le_zero bind].
  - destruct s; cbn [orb]; [discriminate|].
    destruct (c =? 0)%N; [discriminate|].
    intros H. apply quantize_cent_shape in H. exact H.
  - destruct s; [discriminate|].
    intros H. apply quantize_cent_shape in H. contradiction.
  - discriminate.
Qed.

(** Text that is not a number is refused. *)
Lemma parse_amount_rejects_non_numeric (value : pystr) (e : exn) :
  Decimal_of_str (strip (replace_char 44 (py ".") value)) = Raised e ->
  parse_amount value = Raised conversion_syntax.
Proof.
  intros H. unfold parse_amount. rewrite H.
  now rewrite (Decimal_of_str_raises H).
Qed.

(** Zero and negative numbers are refused. *)
Lemma parse_amount_rejects_nonpositive (value : pystr) (d : Decimal) :
  Decimal_of_str (strip (replace_char 44 (py ".") value)) = Returned d ->
  le_zero d = Returned true ->
  parse_amount value
  = Raised (Exn InvalidOperation (py "Amount must be positive.")).
Proof.
  intros H Hz. unfold parse_amount. rewrite H. cbn [bind]. rewrite Hz.
  reflexivity.
Qed.

(** C6 fails on the code: [parse_amount] tests the sign before it rounds,
    so "0.001" and "0,004" pass the test and come back as
    [Decimal("0.00")], which is zero. *)
Theorem parse_amount_returns_zero :
  parse_amount (py "0.001") = Returned (Finite false 0 (-2))
  /\ parse_amount (py "0,004") = Returned (Finite false 0 (-2))
  /\ le_zero (Finite false 0 (-2)) = Returned true.
Proof. vm_compute. repeat split. Qed.

(** The cases of C9 that do hold. *)
Lemma format_currency_examples :
  format_currency ANone = Returned (py "$0,00")
  /\ format_currency (ADecimal (Finite false 150050 (-2)))
     = Returned (py "$1.500,50")
  /\ format_currency (AInt (-1234567)) = Returned (py "-$1.234.567,00")
  /\ format_currency (AFloat (FInf false)) = Returned (py "$0,00")
  /\ format_currency (ADecimal (Finite false 1 40)) = Returned (py "$0,00").
Proof. vm_compute. repeat split. Qed.

Lemma digits_fuel_digits (fuel : nat) (n : N) (acc : pystr) :
  forallb is_ascii_digit acc = true ->
  forallb is_ascii_digit (digits_fuel fuel n acc) = true.
Proof.
  revert n acc; induction fuel as [|f IH]; intros n acc Hacc;
    cbn [digits_fuel]; [exact Hacc|].
  assert (Hd : forallb is_ascii_digit ((48 + n mod 10)%N :: acc) = true).
  { cbn [forallb]. rewrite Hacc, andb_true_r. unfold is_ascii_digit, in_range.
    assert (H10 : (10 <> 0)%N) by discriminate.
    pose proof (N.mod_lt n 10%N H10).
    apply andb_true_iff. rewrite !N.leb_le.
    generalize dependent (n mod 10)%N. intros x Hx. lia. }
  destruct (n <? 10)%N; [exact Hd | apply IH; exact Hd].
Qed.

Lemma str_of_N_digits (n : N) : forallb is_ascii_digit (str_of_N n) = true.
Proof. apply digits_fuel_digits. reflexivity. Qed.

Lemma digits_fuel_nonempty (fuel : nat) (n : N) (acc : pystr) :
  acc <> [] -> digits_fuel fuel n acc <> [].
Proof.
  revert n acc; induction fuel as [|f IH]; intros n acc Hacc;
    cbn [digits_fuel]; [exact Hacc|].
  destruct (n <? 10)%N; [discriminate | apply IH; discriminate].
Qed.

Lemma str_of_N_nonempty (n : N) : str_of_N n <> [].
Proof.
  unfold str_of_N. cbn [digits_fuel].
  destruct (n <? 10)%N; [discriminate|].
  apply digits_fuel_nonempty. discriminate.
Qed.

Lemma split_char_digits (s : pystr) :
  forallb is_ascii_digit s = true -> split_char 46 s = [s].
Proof.
  induction s as [|c s IH]; simpl; [reflexivity|].
  rewrite andb_true_iff. intros [Hc Hs]. rewrite (IH Hs).
  unfold is_ascii_digit, in_range in Hc. apply andb_true_iff in Hc.
  rewrite !N.leb_le in Hc.
  destruct (N.eqb_spec c 46); [lia | reflexivity].
Qed.

Lemma split_char_dot (a b : pystr) :
  forallb is_ascii_digit a = true -> forallb is_ascii_digit b = true ->
  split_char 46 (a ++ 46%N :: b) = [a; b].
Proof.
  intros Ha Hb. induction a as [|c a IH]; simpl.
  - now rewrite (split_char_digits Hb).
  - simpl in Ha. apply andb_true_iff in Ha. destruct Ha as [Hc Ha].
    rewrite (IH Ha).
    unfold is_ascii_digit, in_range in Hc. apply andb_true_iff in Hc.
    rewrite !N.leb_le in Hc.
    destruct (N.eqb_spec c 46); [lia | reflexivity].
Qed.

Lemma contains_dot (a b : pystr) : contains (py ".") (a ++ 46%N :: b) = true.
Proof. apply contains_app. exists a, b. reflexivity. Qed.

Lemma forallb_firstn {A} (f : A -> bool) (n : nat) (l : list A) :
  forallb f l = true -> forallb f (firstn n l) = true.
Proof.
  revert n; induction l as [|x l IH]; intros [|n]; simpl; auto.
  rewrite !andb_true_iff. intros [-> H]. auto.
Qed.

Lemma forallb_skipn {A} (f : A -> bool) (n : nat) (l : list A) :
  forallb f l = true -> forallb f (skipn n l) = true.
Proof.
  revert n; induction l as [|x l IH]; intros [|n]; simpl; auto.
  rewrite !andb_true_iff. intros [_ H]. auto.
Qed.

Lemma forallb_repeat_zero (n : nat) :
  forallb is_ascii_digit (repeat 48%N n) = true.
Proof. induction n; simpl; auto. Qed.

(** The text of an unsigned number of cents: digits, a dot, digits. *)
Lemma to_str_cents (c : N) :
  exists a b,
    to_str (Finite false c (-2)) = a ++ 46%N :: b
    /\ forallb is_ascii_digit a = true /\ forallb is_ascii_digit b = true.
Proof.
  unfold to_str. cbn [sign_str app].
  pose proof (str_of_N_digits c) as Hd.
  set (int_ := str_of_N c) in *.
  assert (Hlen : (0 < len int_)%Z).
  { unfold len. pose proof (@str_of_N_nonempty c). fold int_ in H.
    destruct int_; [congruence | simpl; lia]. }
  replace ((-2 <=? 0)%Z && (-6 <? -2 + len int_)%Z) with true
    by (symmetry; apply andb_true_iff; rewrite Z.leb_le, Z.ltb_lt; lia).
  rewrite Z.eqb_refl.
  destruct (-2 + len int_ <=? 0)%Z eqn:E1.
  - exists [48%N], (repeat 48%N (Z.to_nat (- (-2 + len int_))) ++ int_).
    rewrite app_nil_r. split; [reflexivity|]. split; [reflexivity|].
    rewrite forallb_app, forallb_repeat_zero, Hd. reflexivity.
  - destruct (len int_ <=? -2 + len int_)%Z eqn:E2;
      [apply Z.leb_le in E2; lia|].
    exists (firstn (Z.to_nat (-2 + len int_)) int_),
           (skipn (Z.to_nat (-2 + len int_)) int_).
    rewrite app_nil_r. split; [reflexivity|].
    split; [now apply forallb_firstn | now apply forallb_skipn].
Qed.

(** What is left after the [try] of [format_currency]: a number of cents,
    zero, or a quiet NaN. *)
Lemma quantized_shape (x : Outcome Decimal) :
  (forall e, x = Raised e -> e = conversion_syntax) ->
  exists q,
    try_except (amount <- x ;; quantize amount cent)
      (fun e => is_ValueError e || is_InvalidOperation e)
      (fun _ => Returned zero) = Returned q
    /\ (q = zero \/ (exists s c, q = Finite s c (-2))
        \/ exists s p, q = NaN s false p).
Proof.
  intros Hx. destruct x as [d|e]; cbn [bind].
  - destruct (quantize d cent) as [q|e] eqn:Eq.
    + exists q. split; [reflexivity|].
      apply quantize_cent_shape in Eq. destruct d as [s c ex|s|s g p].
      * destruct Eq as [c' ->]. eauto.
      * contradiction.
      * destruct Eq as [_ [s' [p' ->]]]. eauto.
    + apply quantize_raises in Eq. subst e. exists zero. auto.
  - rewrite (Hx e eq_refl). exists zero. auto.
Qed.

(** [format_currency] returns a string or raises [InvalidOperation]; it
    raises exactly when the value is a quiet NaN after the [try]. *)
Lemma format_currency_outcomes (amount : amount_arg) :
  (exists text, format_currency amount = Returned text)
  \/ format_currency amount = Raised invalid_operation.
Proof.
  unfold format_currency.
  match goal with
  | |- context [try_except (bind ?x _) _ _] =>
    destruct (@quantized_shape x) as [q [Hq Hs]]
  end.
  { destruct amount; try discriminate; intros e;
      apply Decimal_of_str_raises. }
  rewrite Hq. cbn [bind].
  destruct Hs as [-> | [[s' [c' ->]] | [s' [p' ->]]]].
  - left. eexists. vm_compute. reflexivity.
  - left. cbn [lt_zero bind].
    assert (Hqs : exists neg_,
               s' && negb (c' =? 0)%N = neg_
               /\ ((if neg_ then neg (Finite s' c' (-2)) else Finite s' c' (-2))
                   = Finite false c' (-2)
                   \/ (neg_ = false
                       /\ (if neg_ then neg (Finite s' c' (-2))
                           else Finite s' c' (-2)) = Finite true 0 (-2)))).
    { destruct s'; destruct (c' =? 0)%N eqn:E0; cbn [andb negb neg];
        eexists; (split; [reflexivity|]); cbv iota; cbn [neg];
        try rewrite E0; auto.
      apply N.eqb_eq in E0. subst. auto. }
    destruct Hqs as [neg_ [-> Hqs]].
    destruct Hqs as [-> | [-> ->]].
    + destruct (to_str_cents c') as [a [b [Ht [Ha Hb]]]].
      rewrite Ht, contains_dot, (split_char_dot Ha Hb). cbn [bind].
      eexists. reflexivity.
    + eexists. vm_compute. reflexivity.
  - right. reflexivity.
Qed.

(** C9 fails on the code: a NaN goes through [quantize] without an
    exception, and the comparison [quantized < 0], which is outside the
    [try], raises [InvalidOperation]. This happens for [float("nan")]
    and for [Decimal("NaN")]. *)
Theorem format_currency_raises_on_nan :
  format_currency (AFloat FNan) = Raised invalid_operation
  /\ format_currency (ADecimal (NaN false false 0)) = Raised invalid_operation.
Proof. vm_compute. split; reflexivity. Qed.

(** The sign of a negative zero is printed after the peso sign. *)
Lemma format_currency_negative_zero :
  format_currency (AFloat (FZero true)) = Returned (py "$-0,00").
Proof. vm_compute. reflexivity. Qed.

End AmountsProperties.

(** ** The intent classifier and the router *)

Section Classifier.
Context {RT : PyRuntime} {PR : Prompts}.
Variable W : World.

Lemma mem_labels (x : pystr) :
  mem x labels = true -> x = py "register" \/ x = py "query".
Proof.
  unfold mem, labels. cbn [existsb]. rewrite !orb_true_iff, !eqb_eq.
  intros [H | [H | H]]; auto. discriminate.
Qed.

(** With a key, the classifier makes one model call and returns a
    label. *)
Lemma classify_intent_with_key (text : pystr) (tr : list event) :
  key_configured W ->
  _classify_intent W text tr
  = (Returned
       match generate_content W tr (classify_prompt text) with
       | Returned r => if mem (cleaned r) labels then cleaned r else py "query"
       | Raised _ => py "query"
       end,
     tr ++ [ModelCall (classify_prompt text)]).
Proof.
  intros [c [k Hk]]. unfold _classify_intent. rewrite Hk.
  unfold try_exceptM, bindM, call_model, any_exception, ret.
  destruct (generate_content W tr (classify_prompt text)) as [r|e];
    [|reflexivity].
  fold (cleaned r). now destruct (mem (cleaned r) labels).
Qed.

(** Without a key, it raises before it calls anything. *)
Lemma classify_intent_without_key (text : pystr) (tr : list event) :
  ~ key_configured W ->
  _classify_intent W text tr
  = (Raised (Exn RuntimeError (py "GEMINI_API_KEY not configured")), tr).
Proof.
  intros Hn. unfold _classify_intent.
  destruct (getenv_GEMINI_API_KEY W) as [[|c k]|] eqn:E; try reflexivity.
  exfalso. apply Hn. exists c, k. exact E.
Qed.

(** C8. Whatever [_classify_intent] returns is "register" or "query";
    with the API key set it always returns, and it returns "query" when
    the model call raises and when the cleaned answer is neither label;
    when [_classify_intent] itself raises, the handler in the router
    makes the intent "register". The two defaults differ. *)
Theorem classifier_defaults (text : pystr) (tr : list event) :
  (forall l tr',
      _classify_intent W text tr = (Returned l, tr') ->
      l = py "register" \/ l = py "query")
  /\ (key_configured W ->
      exists l,
        (l = py "register" \/ l = py "query")
        /\ _classify_intent W text tr
           = (Returned l, tr ++ [ModelCall (classify_prompt text)]))
  /\ (key_configured W ->
      forall e,
        generate_content W tr (classify_prompt text) = Raised e ->
        _classify_intent W text tr
        = (Returned (py "query"), tr ++ [ModelCall (classify_prompt text)]))
  /\ (key_configured W ->
      forall r,
        generate_content W tr (classify_prompt text) = Returned r ->
        mem (cleaned r) labels = false ->
        _classify_intent W text tr
        = (Returned (py "query"), tr ++ [ModelCall (classify_prompt text)]))
  /\ (forall e tr',
        _classify_intent W text tr = (Raised e, tr') ->
        classify_in_router W text tr = (Returned (py "register"), tr'))
  /\ py "query" <> py "register".
Proof.
  assert (Hlab : key_configured W ->
                 exists l,
                   (l = py "register" \/ l = py "query")
                   /\ _classify_intent W text tr
                      = (Returned l, tr ++ [ModelCall (classify_prompt text)])).
  { intros Hk. rewrite (classify_intent_with_key text tr Hk).
    eexists; split; [|reflexivity].
    destruct (generate_content W tr (classify_prompt text)) as [r|e]; auto.
    destruct (mem (cleaned r) labels) eqn:Em; auto using mem_labels. }
  repeat split.
  - intros l tr' E.
    destruct (getenv_GEMINI_API_KEY W) as [[|c k]|] eqn:Ek;
      try (unfold _classify_intent in E; rewrite Ek in E; discriminate).
    destruct Hlab as [l' [Hl' E']]; [exists c, k; exact Ek|].
    rewrite E' in E. inversion E; subst; exact Hl'.
  - exact Hlab.
  - intros Hk e He. rewrite (classify_intent_with_key text tr Hk), He.
    reflexivity.
  - intros Hk r Hr Hm. rewrite (classify_intent_with_key text tr Hk), Hr, Hm.
    reflexivity.
  - intros e tr' E. unfold classify_in_router, try_exceptM. rewrite E.
    reflexivity.
  - discriminate.
Qed.

End Classifier.

(** Without an API key the classifier raises and the router registers;
    with the provider down the classifier answers "query". *)
Lemma classifier_defaults_witness :
  @classify_in_router ascii_runtime Demo.prompts Demo.world_without_key
    (py "Gaste 20k en almuerzo") []
  = (Returned (py "register"), [])
  /\ @_classify_intent ascii_runtime Demo.prompts Demo.world_model_down
       (py "Gaste 20k en almuerzo") []
     = (Returned (py "query"),
        [] ++ [ModelCall (@classify_prompt Demo.prompts
                            (py "Gaste 20k en almuerzo"))]).
Proof.
  pose proof (@classifier_defaults ascii_runtime Demo.prompts
                Demo.world_without_key (py "Gaste 20k en almuerzo") [])
    as [_ [_ [_ [_ [Hrouter _]]]]].
  pose proof (@classifier_defaults ascii_runtime Demo.prompts
                Demo.world_model_down (py "Gaste 20k en almuerzo") [])
    as [_ [_ [Hdown _]]].
  split.
  - eapply Hrouter. reflexivity.
  - eapply Hdown.
    + exists 116%N, (py "est-key"). reflexivity.
    + reflexivity.
Defined.

(** ** Validation of the extracted transaction *)

Section Extraction.
Context {RT : PyRuntime}.

Lemma check_required_raises (parsed : pydict) (fields : list pystr) (e : exn) :
  check_required parsed fields = Raised e ->
  raises_ValueError (check_required parsed fields).
Proof.
  induction fields as [|f fs IH]; simpl; [discriminate|].
  destruct (dict_has parsed f); cbn [negb]; [exact IH|].
  intros _. eexists; reflexivity.
Qed.

Lemma check_required_has (parsed : pydict) (fields : list pystr) :
  check_required parsed fields = Returned tt ->
  forall f, In f fields -> dict_has parsed f = true.
Proof.
  induction fields as [|f fs IH]; simpl; [contradiction|].
  destruct (dict_has parsed f) eqn:E; cbn [negb]; [|discriminate].
  intros H g [<- | Hg]; auto.
Qed.

Lemma dict_item_has (parsed : pydict) (key : pystr) :
  dict_has parsed key = true ->
  exists v, dict_get parsed key = Some v /\ dict_item parsed key = Returned v.
Proof.
  unfold dict_has, dict_item.
  destruct (dict_get parsed key) as [v|]; [eauto | discriminate].
Qed.

(** Once the required fields are there, the amount step fails with a
    [ValueError] only. *)
Lemma validate_amount_raises (parsed : pydict) (e : exn) :
  dict_has parsed (py "amount") = true ->
  validate_amount parsed = Raised e ->
  raises_ValueError (validate_amount parsed).
Proof.
  intros Hh. destruct (dict_item_has Hh) as [v [_ Hv]].
  unfold validate_amount. rewrite Hv. cbn [bind].
  destruct (Decimal_of_str (py_str v)) as [d|e1] eqn:Ed; cbn [bind].
  - destruct (le_zero d) as [b|e2] eqn:El; cbn [bind].
    + destruct b.
      * intros _. eexists; reflexivity.
      * destruct (quantize d cent) as [q|e3] eqn:Eq; [discriminate|].
        apply quantize_raises in Eq. subst e3.
        intros _. eexists; reflexivity.
    + destruct d; try discriminate. inversion El; subst.
      intros _. eexists; reflexivity.
  - apply Decimal_of_str_raises in Ed. subst e1.
    intros _. eexists; reflexivity.
Qed.

Lemma CategoryType_value_inj (a b : CategoryType) :
  CategoryType_value a = CategoryType_value b -> a = b.
Proof. destruct a, b; try reflexivity; discriminate. Qed.

(** A declared type that is not the type of the category stops the type
    step, whether it is no type at all or the other type. *)
Lemma validate_type_mismatch (parsed : pydict) (category_id : Z)
      (category : Category) (v : pyobj) :
  dict_get parsed (py "type") = Some v ->
  lower (py_str v) <> CategoryType_value (type category) ->
  raises_ValueError (validate_type parsed category_id category).
Proof.
  intros Hv Hne. unfold validate_type, dict_item. rewrite Hv. cbn [bind].
  destruct (mem (lower (py_str v)) [py "expense"; py "income"]) eqn:Em;
    cbn [negb]; [|eexists; reflexivity].
  unfold mem in Em. cbn [existsb] in Em.
  rewrite !orb_true_iff, !eqb_eq in Em.
  destruct Em as [Et | [Et | Et]]; [| |discriminate].
  - rewrite Et in *. change (eqb (py "expense") (py "expense")) with true.
    cbv iota. destruct (type category) eqn:Ec.
    + eexists; reflexivity.
    + exfalso. apply Hne. reflexivity.
  - rewrite Et in *. change (eqb (py "income") (py "expense")) with false.
    cbv iota. destruct (type category) eqn:Ec.
    + exfalso. apply Hne. reflexivity.
    + eexists; reflexivity.
Qed.

(** C3. When the category id of the candidate resolves to a category of
    the user and the declared type is not the type of that category,
    [_validate_and_normalize_response] raises a [ValueError]: no result
    is returned. *)
Theorem category_type_mismatch_is_rejected
        (today : date) (parsed : pydict) (categories : list Category)
        (category_id : Z) (category : Category) (declared : pyobj) :
  validate_category parsed categories = Returned (category_id, category) ->
  dict_get parsed (py "type") = Some declared ->
  lower (py_str declared) <> CategoryType_value (type category) ->
  raises_ValueError (_validate_and_normalize_response today parsed categories).
Proof.
  intros Hc Hv Hne. unfold _validate_and_normalize_response.
  destruct (check_required parsed required_fields) as [[]|e] eqn:Er.
  - cbn [bind].
    pose proof (check_required_has Er) as Hhas.
    destruct (validate_amount parsed) as [amount|e] eqn:Ea.
    + cbn [bind]. rewrite Hc. cbn [bind].
      destruct (validate_type_mismatch category_id Hv Hne) as [msg Ht].
      rewrite Ht. exists msg. reflexivity.
    + assert (Hamount : dict_has parsed (py "amount") = true)
        by (apply Hhas; left; reflexivity).
      destruct (validate_amount_raises Hamount Ea) as [msg Hm].
      rewrite Ea in Hm. rewrite Hm. exists msg. reflexivity.
  - destruct (check_required_raises Er) as [msg Hm].
    rewrite Er in Hm. rewrite Hm. exists msg. reflexivity.
Qed.

End Extraction.

Lemma category_type_mismatch_is_rejected_witness :
  raises_ValueError
    (@_validate_and_normalize_response ascii_runtime (Date 2025 6 15)
       mismatch_example [income_category]).
Proof.
  apply (@category_type_mismatch_is_rejected ascii_runtime (Date 2025 6 15)
           mismatch_example [income_category] 1 income_category
           (PStr (py "expense"))).
  - reflexivity.
  - reflexivity.
  - vm_compute. discriminate.
Defined.

(** ** Dates *)

Lemma new_date_valid (d : date) :
  valid_date d -> new_date (year d) (month d) (day d) = Returned d.
Proof.
  intros [[H1 H2] [[H3 H4] [H5 H6]]]. unfold new_date.
  apply Z.leb_le in H1, H2, H3, H4, H5, H6.
  rewrite H1, H2, H3, H4, H5, H6. destruct d; reflexivity.
Qed.

Lemma new_date_returns_valid (y m d : Z) (x : date) :
  new_date y m d = Returned x -> valid_date x /\ x = Date y m d.
Proof.
  unfold new_date.
  destruct ((1 <=? y)%Z && (y <=? 9999)%Z) eqn:E1; cbn [negb];
    [|discriminate].
  destruct ((1 <=? m)%Z && (m <=? 12)%Z) eqn:E2; cbn [negb]; [|discriminate].
  destruct ((1 <=? d)%Z && (d <=? _days_in_month y m)%Z) eqn:E3; cbn [negb];
    [|discriminate].
  intros [= <-]. apply andb_true_iff in E1, E2, E3.
  rewrite !Z.leb_le in E1, E2, E3. split; [|reflexivity].
  unfold valid_date. cbn [year month day]. tauto.
Qed.

Lemma new_date_raises (y m d : Z) (e : exn) :
  new_date y m d = Raised e -> exn_cls e = ValueError.
Proof.
  unfold new_date.
  repeat match goal with
         | |- context [if ?b then _ else _] => destruct b
         end; try discriminate; now intros [= <-].
Qed.

Lemma date_eqb_eq (a b : date) : date_eqb a b = true <-> a = b.
Proof.
  unfold date_eqb. rewrite !andb_true_iff, !Z.eqb_eq.
  destruct a, b; cbn [year month day]. split.
  - intros [[-> ->] ->]. reflexivity.
  - intros [= -> -> ->]. auto.
Qed.

Lemma days_in_month_le_31 (y m : Z) :
  (1 <= m <= 12 -> _days_in_month y m <= 31)%Z.
Proof.
  intros H. unfold _days_in_month.
  destruct ((m =? 2)%Z && _is_leap y); [lia|].
  assert (Hm : (m = 1 \/ m = 2 \/ m = 3 \/ m = 4 \/ m = 5 \/ m = 6 \/ m = 7
                \/ m = 8 \/ m = 9 \/ m = 10 \/ m = 11 \/ m = 12)%Z) by lia.
  repeat (destruct Hm as [-> | Hm]; [vm_compute; discriminate|]).
  subst m. vm_compute. discriminate.
Qed.

Lemma all_in_block_spec (f : Z -> bool) (k : nat) (lo : Z) :
  all_in_block f k lo = true ->
  forall z, (lo <= z < lo + 2 ^ Z.of_nat k)%Z -> f z = true.
Proof.
  revert lo; induction k as [|k IH]; intros lo H z Hz.
  - simpl in H. change (2 ^ Z.of_nat 0)%Z with 1%Z in Hz.
    replace z with lo by lia. exact H.
  - cbn [all_in_block] in H. apply andb_true_iff in H. destruct H as [H1 H2].
    rewrite Nat2Z.inj_succ, Z.pow_succ_r in Hz by lia.
    destruct (Z_lt_ge_dec z (lo + 2 ^ Z.of_nat k)%Z).
    + apply (IH lo H1). lia.
    + apply (IH _ H2). lia.
Qed.

Lemma pad4_all :
  all_in_block (fun y => negb ((1 <=? y) && (y <=? 9999))%Z || pad4_ok y)
               14 0 = true.
Proof. vm_compute. reflexivity. Qed.

Lemma in_range_list (n : nat) (z : Z) :
  (1 <= z <= Z.of_nat n)%Z -> In z (map Z.of_nat (seq 1 n)).
Proof.
  intros H. apply in_map_iff. exists (Z.to_nat z). split; [lia|].
  apply in_seq. lia.
Qed.

Section Parsing.
Context {RT : PyRuntime}.

Lemma digit_value_ascii (c : N) :
  in_range 48 57 c = true -> digit_value c = Some (c - 48)%N.
Proof. unfold in_range, digit_value. now intros ->. Qed.

Lemma four_digits_zero_pad (y : Z) (rest : pystr) :
  (1 <= y <= 9999)%Z -> four_digits (zero_pad 4 y ++ rest) = Some (y, rest).
Proof.
  intros Hy.
  assert (H : pad4_ok y = true).
  { pose proof (all_in_block_spec pad4_all (z:=y)) as H.
    cbv beta in H. change (2 ^ Z.of_nat 14)%Z with 16384%Z in H.
    assert (Hr : ((1 <=? y) && (y <=? 9999))%Z = true)
      by (apply andb_true_iff; rewrite !Z.leb_le; lia).
    rewrite Hr in H. apply H. lia. }
  unfold pad4_ok in H.
  destruct (zero_pad 4 y) as [|a [|b [|c [|d [|? ?]]]]]; try discriminate.
  rewrite !andb_true_iff in H.
  destruct H as [[[[Ha Hb] Hc] Hd] Hv]. apply Z.eqb_eq in Hv.
  cbn [app]. unfold four_digits.
  rewrite (digit_value_ascii Ha), (digit_value_ascii Hb),
    (digit_value_ascii Hc), (digit_value_ascii Hd), Hv.
  reflexivity.
Qed.

Lemma md_all :
  forallb (fun m => forallb (md_ok m) days31) months12 = true.
Proof. vm_compute. reflexivity. Qed.

Lemma match_md_zero_pad (m d : Z) :
  (1 <= m <= 12)%Z -> (1 <= d <= 31)%Z ->
  match_md (zero_pad 2 m ++ py "-" ++ zero_pad 2 d) = Some (m, d, []).
Proof.
  intros Hm Hd. pose proof md_all as H.
  rewrite forallb_forall in H.
  specialize (H m (in_range_list (n:=12) Hm)).
  rewrite forallb_forall in H.
  specialize (H d (in_range_list (n:=31) Hd)).
  unfold md_ok in H.
  destruct (match_md _) as [[[m' d'] [|? ?]]|]; try discriminate.
  apply andb_true_iff in H. rewrite !Z.eqb_eq in H.
  destruct H as [-> ->]. reflexivity.
Qed.

(** The text that [isoformat] (and [strftime("%Y-%m-%d")]) writes for a
    date is read back by [strptime] as that date. *)
Lemma strptime_isoformat (d : date) :
  valid_date d -> strptime_ymd (isoformat d) = Returned d.
Proof.
  intros Hv. pose proof Hv as [Hy [Hm Hd]].
  unfold strptime_ymd, match_ymd, isoformat.
  rewrite (four_digits_zero_pad _ Hy). cbv beta iota.
  change (dash (py "-" ++ zero_pad 2 (month d) ++ py "-" ++ zero_pad 2 (day d)))
    with (Some (zero_pad 2 (month d) ++ py "-" ++ zero_pad 2 (day d))).
  cbv beta iota.
  rewrite match_md_zero_pad; [|exact Hm|].
  - apply new_date_valid. exact Hv.
  - pose proof (@days_in_month_le_31 (year d) (month d) Hm). lia.
Qed.

Lemma fromisoformat_raises (s : pystr) (e : exn) :
  fromisoformat s = Raised e -> exn_cls e = ValueError.
Proof.
  unfold fromisoformat.
  match goal with
  | |- match ?f with _ => _ end = _ -> _ => destruct f as [[[y m] d]|]
  end.
  - apply new_date_raises.
  - now intros [= <-].
Qed.

Lemma fromisoformat_valid (s : pystr) (d : date) :
  fromisoformat s = Returned d -> valid_date d.
Proof.
  unfold fromisoformat.
  match goal with
  | |- match ?f with _ => _ end = _ -> _ => destruct f as [[[y m] dd]|]
  end.
  - intros H. apply new_date_returns_valid in H. tauto.
  - discriminate.
Qed.

End Parsing.

(** ** The proleptic Gregorian calendar of [datetime] *)

Section Calendar.
Local Open Scope Z_scope.

Ltac month_cases m :=
  let H := fresh "Hm" in
  assert (H : m = 1 \/ m = 2 \/ m = 3 \/ m = 4 \/ m = 5 \/ m = 6 \/ m = 7
              \/ m = 8 \/ m = 9 \/ m = 10 \/ m = 11 \/ m = 12) by lia;
  repeat (destruct H as [H | H]; [subst m|]); [ .. | subst m].

Ltac eval_tables :=
  repeat match goal with
         | |- context [_DAYS_IN_MONTH ?m] =>
           let v := eval vm_compute in (_DAYS_IN_MONTH m) in
           progress change (_DAYS_IN_MONTH m) with v
         | |- context [_DAYS_BEFORE_MONTH ?m] =>
           let v := eval vm_compute in (_DAYS_BEFORE_MONTH m) in
           progress change (_DAYS_BEFORE_MONTH m) with v
         | |- context [(?a =? ?b)%Z] =>
           let v := eval vm_compute in (a =? b)%Z in
           progress change (a =? b)%Z with v
         | |- context [(?a <? ?b)%Z] =>
           let v := eval vm_compute in (a <? b)%Z in
           progress change (a <? b)%Z with v
         end.

Lemma month_day_all :
  all_in_block (fun n => negb (n <? 365) || (month_day_ok true n && month_day_ok false n)) 9 0 = true.
Proof. vm_compute. reflexivity. Qed.

Lemma ord2ymd_unfold (n : Z) :
  _ord2ymd n =
  let n0 := n - 1 in
  let n400 := n0 / 146097 in
  let r400 := n0 mod 146097 in
  let n100 := r400 / 36524 in
  let r100 := r400 mod 36524 in
  let n4 := r100 / 1461 in
  let r4 := r100 mod 1461 in
  let n1 := r4 / 365 in
  let r1 := r4 mod 365 in
  let y := 400 * n400 + 100 * n100 + 4 * n4 + n1 + 1 in
  if (n1 =? 4) || (n100 =? 4) then Date (y - 1) 12 31
  else
    let '(m, d) := month_day_of r1 ((n1 =? 3) && (negb (n4 =? 24) || (n100 =? 3))) in
    Date y m d.
Proof.
  unfold _ord2ymd, month_day_of, _DI400Y, _DI100Y, _DI4Y. cbv zeta.
  replace ((n - 1) / 146097 * 400 + 1 + (n - 1) mod 146097 / 36524 * 100 +
     (n - 1) mod 146097 mod 36524 / 1461 * 4 +
     (n - 1) mod 146097 mod 36524 mod 1461 / 365) 
   with (400 * ((n - 1) / 146097) + 100 * ((n - 1) mod 146097 / 36524) +
   4 * ((n - 1) mod 146097 mod 36524 / 1461) +
   (n - 1) mod 146097 mod 36524 mod 1461 / 365 + 1) by ring.
  destruct (_ || _); [reflexivity|].
  destruct (_ <? _); reflexivity.
Qed.

Lemma is_leap_cycle (n400 n100 n4 n1 : Z) :
  0 <= n100 <= 3 -> 0 <= n4 <= 24 -> 0 <= n1 <= 3 ->
  _is_leap (400 * n400 + 100 * n100 + 4 * n4 + n1 + 1)
  = (n1 =? 3) && (negb (n4 =? 24) || (n100 =? 3)).
Proof.
  intros H100 H4 H1. unfold _is_leap.
  destruct (Z.eqb_spec n1 3), (Z.eqb_spec n4 24), (Z.eqb_spec n100 3);
    cbn [andb orb negb];
    repeat match goal with
           | |- context [?a mod ?b =? 0] =>
             destruct (Z.eqb_spec (a mod b) 0)
           end; cbn [andb orb negb]; try reflexivity; exfalso;
    Z.div_mod_to_equations; lia.
Qed.

Lemma days_before_year_cycle (n400 n100 n4 n1 : Z) :
  0 <= n100 <= 3 -> 0 <= n4 <= 24 -> 0 <= n1 <= 3 ->
  _days_before_year (400 * n400 + 100 * n100 + 4 * n4 + n1 + 1)
  = 146097 * n400 + 36524 * n100 + 1461 * n4 + 365 * n1.
Proof.
  intros H100 H4 H1. unfold _days_before_year.
  Z.div_mod_to_equations. lia.
Qed.

Lemma month_day_of_ok (leapyear : bool) (n : Z) :
  0 <= n < 365 -> month_day_ok leapyear n = true.
Proof.
  intros H.
  pose proof (all_in_block_spec month_day_all (z:=n)) as Ha.
  cbv beta in Ha. change (2 ^ Z.of_nat 9) with 512 in Ha.
  assert (Hl : (n <? 365) = true) by (apply Z.ltb_lt; lia).
  rewrite Hl in Ha. cbn [negb orb] in Ha.
  specialize (Ha ltac:(lia)). apply andb_true_iff in Ha.
  destruct leapyear; tauto.
Qed.

Lemma days_in_month_unfold (y m : Z) :
  _days_in_month y m
  = _DAYS_IN_MONTH m + (if (m =? 2) && _is_leap y then 1 else 0).
Proof.
  unfold _days_in_month. destruct (Z.eqb_spec m 2) as [->|]; cbn [andb].
  - destruct (_is_leap y); reflexivity.
  - lia.
Qed.

Lemma ord2ymd_correct (n : Z) :
  1 <= n <= _MAXORDINAL ->
  valid_date (_ord2ymd n) /\ toordinal (_ord2ymd n) = n.
Proof.
  unfold _MAXORDINAL. intros Hn. rewrite ord2ymd_unfold. cbv zeta.
  pose proof (Z.div_mod (n - 1) 146097 ltac:(lia)) as E400.
  pose proof (Z.mod_pos_bound (n - 1) 146097 ltac:(lia)) as B400.
  set (n400 := (n - 1) / 146097) in *.
  set (r400 := (n - 1) mod 146097) in *.
  pose proof (Z.div_mod r400 36524 ltac:(lia)) as E100.
  pose proof (Z.mod_pos_bound r400 36524 ltac:(lia)) as B100.
  set (n100 := r400 / 36524) in *.
  set (r100 := r400 mod 36524) in *.
  pose proof (Z.div_mod r100 1461 ltac:(lia)) as E4.
  pose proof (Z.mod_pos_bound r100 1461 ltac:(lia)) as B4.
  set (n4 := r100 / 1461) in *.
  set (r4 := r100 mod 1461) in *.
  pose proof (Z.div_mod r4 365 ltac:(lia)) as E1.
  pose proof (Z.mod_pos_bound r4 365 ltac:(lia)) as B1.
  set (n1 := r4 / 365) in *.
  set (r1 := r4 mod 365) in *.
  clearbody n400 r400 n100 r100 n4 r4 n1 r1.
  assert (H400 : 0 <= n400 <= 24) by lia.
  assert (H100 : 0 <= n100 <= 4) by lia.
  assert (H4 : 0 <= n4 <= 24) by lia.
  assert (H1 : 0 <= n1 <= 4) by lia.
  destruct ((n1 =? 4) || (n100 =? 4)) eqn:Esp.
  - assert (Hy : exists a b,
               0 <= a <= 3 /\ 0 <= b <= 24 /\ (b <> 24 \/ a = 3)
               /\ 400 * n400 + 100 * n100 + 4 * n4 + n1 + 1 - 1
                  = 400 * n400 + 100 * a + 4 * b + 3 + 1
               /\ n - 1 = 146097 * n400 + 36524 * a + 1461 * b + 365 * 3 + 365).
    { apply orb_true_iff in Esp. rewrite !Z.eqb_eq in Esp.
      destruct (Z.eq_dec n100 4) as [E|E].
      - exists 3, 24. lia.
      - exists n100, n4. lia. }
    destruct Hy as [a [b [Ha [Hb [Hab [Ey En]]]]]]. rewrite Ey.
    assert (Hleap : _is_leap (400 * n400 + 100 * a + 4 * b + 3 + 1) = true).
    { rewrite is_leap_cycle by lia.
      destruct (Z.eqb_spec b 24), (Z.eqb_spec a 3); cbn; try reflexivity; lia. }
    unfold valid_date, toordinal, _ymd2ord, _days_before_month.
    cbn [year month day].
    rewrite days_in_month_unfold, Hleap, days_before_year_cycle by lia.
    change (_DAYS_IN_MONTH 12) with 31. change (_DAYS_BEFORE_MONTH 12) with 334.
    change (12 =? 2) with false. change (2 <? 12) with true. cbn [andb].
    assert (Hyear : 400 * n400 + 100 * a + 4 * b <= 9995).
    { destruct (Z.eq_dec n400 24); [|lia].
      destruct (Z.eq_dec a 3); lia. }
    lia.
  - apply orb_false_iff in Esp. rewrite !Z.eqb_neq in Esp.
    pose proof (@month_day_of_ok
                  ((n1 =? 3) && (negb (n4 =? 24) || (n100 =? 3))) r1
                  ltac:(lia)) as Hok.
    unfold month_day_ok in Hok.
    destruct (month_day_of r1 _) as [m d].
    rewrite !andb_true_iff, !Z.leb_le, Z.eqb_eq in Hok.
    unfold valid_date, toordinal, _ymd2ord, _days_before_month.
    cbn [year month day].
    rewrite days_in_month_unfold, is_leap_cycle, days_before_year_cycle by lia.
    assert (Hyear : 400 * n400 + 100 * n100 + 4 * n4 + n1 <= 9998).
    { destruct (Z.eq_dec n400 24); [|lia].
      destruct (Z.eq_dec n100 3); [|lia].
      destruct (Z.eq_dec n4 24); lia. }
    lia.
Qed.

Lemma days_before_year_succ (y : Z) :
  _days_before_year (y + 1)
  = _days_before_year y + 365 + (if _is_leap y then 1 else 0).
Proof.
  unfold _days_before_year, _is_leap.
  replace (y + 1 - 1) with y by lia.
  destruct (Z.eqb_spec (y mod 4) 0), (Z.eqb_spec (y mod 100) 0),
    (Z.eqb_spec (y mod 400) 0); cbn [andb orb negb];
    Z.div_mod_to_equations; lia.
Qed.

Lemma days_before_year_mono (y1 y2 : Z) :
  y1 <= y2 -> _days_before_year y1 <= _days_before_year y2.
Proof.
  intros H. replace y2 with (y1 + Z.of_nat (Z.to_nat (y2 - y1))) by lia.
  induction (Z.to_nat (y2 - y1)) as [|k IH].
  - replace (y1 + Z.of_nat 0) with y1 by lia. lia.
  - replace (y1 + Z.of_nat (S k)) with (y1 + Z.of_nat k + 1) by lia.
    rewrite days_before_year_succ. destruct (_is_leap _); lia.
Qed.

(** The day of the year of a valid date. *)
Lemma day_of_year_bounds (y m d : Z) :
  1 <= m <= 12 -> 1 <= d <= _days_in_month y m ->
  1 <= _days_before_month y m + d <= 365 + (if _is_leap y then 1 else 0).
Proof.
  intros Hm Hd. rewrite days_in_month_unfold in Hd.
  unfold _days_before_month. revert Hd.
  month_cases m; eval_tables; destruct (_is_leap y); cbn [andb]; lia.
Qed.

Lemma month_order (y m1 d1 m2 d2 : Z) :
  1 <= m1 -> m1 < m2 -> m2 <= 12 ->
  d1 <= _days_in_month y m1 -> 1 <= d2 ->
  _days_before_month y m1 + d1 < _days_before_month y m2 + d2.
Proof.
  intros H1 H12 H2 Hd1 Hd2. rewrite days_in_month_unfold in Hd1.
  unfold _days_before_month. revert Hd1.
  month_cases m1; month_cases m2; try lia;
    eval_tables; destruct (_is_leap y); cbn [andb]; lia.
Qed.

Lemma date_ltb_spec (a b : date) :
  date_ltb a b = true
  <-> year a < year b
      \/ (year a = year b
          /\ (month a < month b \/ (month a = month b /\ day a < day b))).
Proof.
  unfold date_ltb.
  rewrite !orb_true_iff, !andb_true_iff, !orb_true_iff, !andb_true_iff,
    !Z.ltb_lt, !Z.eqb_eq.
  reflexivity.
Qed.

Lemma toordinal_lt (a b : date) :
  valid_date a -> valid_date b ->
  date_ltb a b = true -> toordinal a < toordinal b.
Proof.
  intros [Hya [Hma Hda]] [Hyb [Hmb Hdb]].
  rewrite date_ltb_spec. unfold toordinal, _ymd2ord.
  pose proof (day_of_year_bounds Hma Hda) as Ba.
  pose proof (day_of_year_bounds Hmb Hdb) as Bb.
  intros [Hy | [Ey [Hm | [Em Hd]]]].
  - pose proof (@days_before_year_mono (year a + 1) (year b) ltac:(lia)) as Hmono.
    rewrite days_before_year_succ in Hmono. lia.
  - rewrite Ey in *.
    pose proof (@month_order (year b) (month a) (day a) (month b) (day b)).
    lia.
  - rewrite Ey, Em. lia.
Qed.

Lemma date_ltb_total (a b : date) :
  date_ltb a b = false -> a = b \/ date_ltb b a = true.
Proof.
  intros H. apply not_true_iff_false in H.
  rewrite date_ltb_spec in *.
  assert (Hc : (year a = year b /\ month a = month b /\ day a = day b)
               \/ (year b < year a
                   \/ (year b = year a
                       /\ (month b < month a
                           \/ (month b = month a /\ day b < day a)))))
    by lia.
  destruct Hc as [[Ey [Em Ed]] | Hc]; [left | right; exact Hc].
  destruct a, b; cbn [year month day] in *. congruence.
Qed.

(** On valid dates, the order of [date] is the order of the ordinals. *)
Lemma date_ltb_ordinal (a b : date) :
  valid_date a -> valid_date b ->
  date_ltb a b = (toordinal a <? toordinal b).
Proof.
  intros Ha Hb. destruct (date_ltb a b) eqn:E.
  - symmetry. apply Z.ltb_lt. now apply toordinal_lt.
  - symmetry. apply Z.ltb_ge.
    destruct (date_ltb_total E) as [-> | H]; [lia|].
    apply toordinal_lt in H; auto. lia.
Qed.

Lemma toordinal_max (d : date) : valid_date d -> 1 <= toordinal d <= _MAXORDINAL.
Proof.
  intros [Hy [Hm Hd]]. unfold toordinal, _ymd2ord.
  pose proof (day_of_year_bounds Hm Hd) as B.
  pose proof (@days_before_year_mono (year d + 1) 10000 ltac:(lia)) as M1.
  pose proof (@days_before_year_mono 1 (year d) ltac:(lia)) as M2.
  rewrite days_before_year_succ in M1.
  change (_days_before_year 10000) with 3652059 in M1.
  change (_days_before_year 1) with 0 in M2.
  unfold _MAXORDINAL. lia.
Qed.

End Calendar.

(** ** Date resolution *)

Section DateResolution.
Context {RT : PyRuntime}.

Lemma astimezone_valid (dt local : datetime) (target : tzinfo) :
  astimezone dt target = Returned local -> valid_date (dt_date local).
Proof.
  unfold astimezone.
  match goal with
  | |- context [if ?c then _ else _] => destruct c eqn:E
  end; [|discriminate].
  apply andb_true_iff in E. rewrite Z.ltb_lt, Z.leb_le in E.
  intros [= <-]. cbn [dt_date]. apply ord2ymd_correct. lia.
Qed.

(** Today's date in Bogota is a date. *)
Lemma today_colombia_valid (now_utc : datetime) (today : date) :
  today_colombia now_utc = Returned today -> valid_date today.
Proof.
  unfold today_colombia, convert_utc_to_local.
  change (ZoneInfo (py "America/Bogota")) with (Returned Bogota).
  cbn [try_except bind].
  destruct (astimezone now_utc Bogota) as [local|e] eqn:E; [|discriminate].
  cbn [bind]. intros [= <-]. exact (astimezone_valid E).
Qed.

Lemma strptime_raises (date_str : pystr) (e : exn) :
  strptime_ymd date_str = Raised e -> exn_cls e = ValueError.
Proof.
  unfold strptime_ymd.
  destruct (match_ymd date_str) as [[[[y m] d] [|c rest]]|].
  - apply new_date_raises.
  - now intros [= <-].
  - now intros [= <-].
Qed.

(** A text that [strptime] reads: the stored instant is the clock
    reading when the date is today's date in Bogota, and the date at
    12:00:00 UTC otherwise. *)
Lemma process_ai_date_parsed
      (now_utc : datetime) (date_str : pystr) (ai_date today : date) :
  strptime_ymd date_str = Returned ai_date ->
  today_colombia now_utc = Returned today ->
  _process_ai_date now_utc date_str
  = Returned (if date_eqb ai_date today then now_utc
              else Datetime ai_date 12 0 0 0 UTC,
              ai_date).
Proof.
  intros Hp Ht. unfold _process_ai_date, today_colombia in *.
  rewrite Hp. cbn [bind].
  destruct (convert_utc_to_local now_utc (py "America/Bogota")) as [nc|e];
    [|discriminate].
  cbn [bind] in *. injection Ht as Ht. rewrite Ht.
  now destruct (date_eqb ai_date today).
Qed.

(** A text that [strptime] does not read: the clock reading and its UTC
    date are returned instead of an error. *)
Lemma process_ai_date_fallback
      (now_utc : datetime) (date_str : pystr) (e : exn) :
  strptime_ymd date_str = Raised e ->
  _process_ai_date now_utc date_str = Returned (now_utc, dt_date now_utc).
Proof.
  intros Hp. pose proof (strptime_raises Hp) as Hc.
  unfold _process_ai_date. rewrite Hp. cbn [bind try_except].
  unfold is_ValueError. now rewrite Hc.
Qed.

(** C4. For the well-formed date text of today's date in Bogota,
    [_process_ai_date] returns [now_utc] itself as the instant to store,
    together with the date. *)
Theorem process_ai_date_today (now_utc : datetime) (ai_date : date) :
  today_colombia now_utc = Returned ai_date ->
  _process_ai_date now_utc (isoformat ai_date) = Returned (now_utc, ai_date).
Proof.
  intros Ht. pose proof (today_colombia_valid Ht) as Hv.
  rewrite (process_ai_date_parsed (strptime_isoformat Hv) Ht).
  now rewrite (proj2 (date_eqb_eq ai_date ai_date) eq_refl).
Qed.

(** C5, as the code has it. For a well-formed date text that is not
    today's date in Bogota, [_process_ai_date] returns that date at
    12:00:00 on the UTC clock as the instant to store, together with the
    date. *)
Theorem process_ai_date_other_day (now_utc : datetime) (ai_date today : date) :
  valid_date ai_date ->
  today_colombia now_utc = Returned today ->
  ai_date <> today ->
  _process_ai_date now_utc (isoformat ai_date)
  = Returned (Datetime ai_date 12 0 0 0 UTC, ai_date).
Proof.
  intros Hv Ht Hne.
  rewrite (process_ai_date_parsed (strptime_isoformat Hv) Ht).
  destruct (date_eqb ai_date today) eqn:E; [|reflexivity].
  apply date_eqb_eq in E. contradiction.
Qed.

End DateResolution.

(** At 15:30 UTC on 15 June 2025 it is 10:30 on 15 June in Bogota, and
    "2025-06-15" is stored as that very instant. *)
Lemma process_ai_date_today_witness :
  @_process_ai_date ascii_runtime (Datetime (Date 2025 6 15) 15 30 12 250 UTC)
    (isoformat (Date 2025 6 15))
  = Returned (Datetime (Date 2025 6 15) 15 30 12 250 UTC, Date 2025 6 15).
Proof.
  apply (@process_ai_date_today ascii_runtime). reflexivity.
Defined.

(** The scenario of the specification: "ayer" on 15 June 2025 is stored
    as 2025-06-14T12:00:00Z. *)
Lemma process_ai_date_other_day_witness :
  @_process_ai_date ascii_runtime (Datetime (Date 2025 6 15) 15 30 12 250 UTC)
    (isoformat (Date 2025 6 14))
  = Returned (Datetime (Date 2025 6 14) 12 0 0 0 UTC, Date 2025 6 14).
Proof.
  apply (@process_ai_date_other_day ascii_runtime _ _ (Date 2025 6 15)).
  - vm_compute. intuition discriminate.
  - reflexivity.
  - discriminate.
Defined.

(** C5 as stated fails. On 15 June 2025, 15:30 UTC, the text
    "2025-06-14" is not today's date in Bogota; noon of 14 June on the
    clock of Bogota is 17:00:00 UTC, and [_process_ai_date] stores
    12:00:00 UTC, which is 07:00:00 in Bogota. *)
Lemma process_ai_date_not_local_noon :
  let now_utc := Datetime (Date 2025 6 15) 15 30 12 250 UTC in
  let ai_date := Date 2025 6 14 in
  isoformat ai_date = py "2025-06-14"
  /\ today_colombia now_utc = Returned (Date 2025 6 15)
  /\ local_noon_as_utc ai_date = Returned (Datetime ai_date 17 0 0 0 UTC)
  /\ @_process_ai_date ascii_runtime now_utc (py "2025-06-14")
     = Returned (Datetime ai_date 12 0 0 0 UTC, ai_date)
  /\ astimezone (Datetime ai_date 12 0 0 0 UTC) Bogota
     = Returned (Datetime ai_date 7 0 0 0 Bogota)
  /\ Datetime ai_date 12 0 0 0 UTC <> Datetime ai_date 17 0 0 0 UTC.
Proof. vm_compute. repeat split; discriminate. Qed.

(** ** Validation of the date *)

Section DateValidation.
Context {RT : PyRuntime}.
Local Open Scope Z_scope.

(** What the handler around the date check does with a [ValueError]. *)
Lemma date_handler_raises (date_str : pystr) (msg : pystr) :
  raises_ValueError
    (A := pystr)
    (if contains (py "Invalid isoformat") msg
        || contains (py "does not match format") msg
     then Raised (Exn ValueError
                    (py "Invalid date format: " ++ date_str
                     ++ py ". Expected YYYY-MM-DD format"))
     else Raised (Exn ValueError msg)).
Proof. destruct (_ || _); eexists; reflexivity. Qed.

(** The date check in terms of days: the text must be a date, not after
    today and at most 3650 days before it. *)
Lemma validate_date_spec (today : date) (parsed : pydict) (v : pyobj) :
  valid_date today -> 3650 < toordinal today ->
  dict_get parsed (py "date") = Some v ->
  match fromisoformat (strip (py_str v)) with
  | Raised _ => raises_ValueError (validate_date parsed today)
  | Returned d =>
    if (toordinal today <? toordinal d)
       || (3650 <? toordinal today - toordinal d)
    then raises_ValueError (validate_date parsed today)
    else validate_date parsed today = Returned (isoformat d)
  end.
Proof.
  intros Hv H3650 Hd. unfold validate_date, dict_item. rewrite Hd.
  cbn [bind].
  destruct (fromisoformat (strip (py_str v))) as [d|e] eqn:Ef.
  - pose proof (fromisoformat_valid Ef) as Hvd.
    cbn [bind]. unfold date_gtb.
    rewrite (date_ltb_ordinal Hv Hvd).
    destruct (toordinal today <? toordinal d) eqn:E1; cbn [orb].
    + unfold try_except, is_ValueError. cbn [exn_cls]. apply date_handler_raises.
    + pose proof (toordinal_max Hv) as Hmax.
      unfold sub_days.
      assert (Ho : (0 <? toordinal today - 3650)
                   && (toordinal today - 3650 <=? _MAXORDINAL) = true).
      { apply andb_true_iff. rewrite Z.ltb_lt, Z.leb_le. lia. }
      rewrite Ho. cbn [bind].
      destruct (@ord2ymd_correct (toordinal today - 3650) ltac:(lia))
        as [Hvo Eo].
      rewrite (date_ltb_ordinal Hvd Hvo), Eo.
      replace (toordinal d <? toordinal today - 3650)
        with (3650 <? toordinal today - toordinal d)
        by (destruct (Z.ltb_spec 3650 (toordinal today - toordinal d)),
              (Z.ltb_spec (toordinal d) (toordinal today - 3650));
            try reflexivity; lia).
      destruct (3650 <? toordinal today - toordinal d).
      * unfold try_except, is_ValueError. cbn [exn_cls].
        apply date_handler_raises.
      * reflexivity.
  - cbn [bind]. pose proof (fromisoformat_raises Ef) as Hc.
    destruct e as [cls msg]. cbn [exn_cls] in Hc. subst cls.
    unfold try_except, is_ValueError. cbn [exn_cls exn_msg].
    apply date_handler_raises.
Qed.

(** C7. When the earlier checks pass, the date text decides the result
    of [_validate_and_normalize_response]: a [ValueError] when it is not
    an ISO calendar date, when the date is after today and when it is
    more than 3650 days before today; otherwise the result is returned
    with the date written as YYYY-MM-DD. *)
Theorem date_field_validation
        (today : date) (parsed : pydict) (categories : list Category)
        (amount : Decimal) (category_id : Z) (transaction_type : pystr)
        (v : pyobj) :
  valid_date today -> 3650 < toordinal today ->
  reaches_date_check parsed categories amount category_id transaction_type ->
  dict_get parsed (py "date") = Some v ->
  let result := _validate_and_normalize_response today parsed categories in
  match fromisoformat (strip (py_str v)) with
  | Raised _ => raises_ValueError result
  | Returned d =>
    (toordinal today < toordinal d -> raises_ValueError result)
    /\ (3650 < toordinal today - toordinal d -> raises_ValueError result)
    /\ (0 <= toordinal today - toordinal d <= 3650 ->
        exists r,
          result = Returned r
          /\ r_date r = isoformat d
          /\ r_amount r = amount
          /\ r_category_id r = category_id
          /\ r_type r = transaction_type)
  end.
Proof.
  intros Hv H3650 [Hr [Ha [category [Hc Ht]]]] Hd result.
  pose proof (validate_date_spec Hv H3650 Hd) as Hs.
  assert (Hres : result
                 = bind (validate_date parsed today) (fun date_str =>
                     Returned {| r_amount := amount;
                                 r_category_id := category_id;
                                 r_description :=
                                   strip (py_str
                                     match dict_get parsed (py "description") with
                                     | Some v => v
                                     | None => PStr []
                                     end);
                                 r_type := transaction_type;
                                 r_date := date_str |})).
  { unfold result, _validate_and_normalize_response.
    rewrite Hr, Ha, Hc. cbn [bind]. rewrite Ht. reflexivity. }
  assert (Hraise : raises_ValueError (validate_date parsed today) ->
                   raises_ValueError result).
  { intros [msg Hm]. rewrite Hres, Hm. exists msg. reflexivity. }
  destruct (fromisoformat (strip (py_str v))) as [d|e]; [|auto].
  destruct (Z.ltb_spec (toordinal today) (toordinal d)) as [L1|L1];
    destruct (Z.ltb_spec 3650 (toordinal today - toordinal d)) as [L2|L2];
    cbn [orb] in Hs; repeat split; intros; try lia; auto.
  rewrite Hres, Hs. cbn [bind]. eexists. repeat split.
Qed.

End DateValidation.

Lemma date_field_validation_witness :
  exists r,
    @_validate_and_normalize_response ascii_runtime (Date 2025 6 15)
      accepted_example [expense_category] = Returned r
    /\ r_date r = py "2025-06-14"
    /\ r_amount r = Finite false 2000000 (-2)
    /\ r_category_id r = 1%Z
    /\ r_type r = py "expense".
Proof.
  assert (Hv : valid_date (Date 2025 6 15))
    by (vm_compute; intuition discriminate).
  assert (H3650 : (3650 < toordinal (Date 2025 6 15))%Z) by reflexivity.
  assert (Hreach : @reaches_date_check ascii_runtime accepted_example
                     [expense_category] (Finite false 2000000 (-2)) 1
                     (py "expense")).
  { repeat split. exists expense_category. split; reflexivity. }
  pose proof (@date_field_validation ascii_runtime (Date 2025 6 15)
                accepted_example [expense_category] _ _ _
                (PStr (py " 2025-06-14 ")) Hv H3650 Hreach eq_refl) as H.
  cbv zeta in H.
  change (@fromisoformat ascii_runtime (strip (py_str (PStr (py " 2025-06-14 ")))))
    with (Returned (Date 2025 6 14)) in H.
  cbv iota in H. destruct H as [_ [_ H]].
  apply H. vm_compute. split; discriminate.
Defined.
